(** * Chair selection: a shallow embedding of [aas_chair_selection.py]

    The program filters a roster (a pandas DataFrame) by areas of expertise,
    drops the people who speak in the session to be chaired, and returns
    either every remaining row or one drawn at random.

    The embedding keeps the shape of the Python code: every pandas or numpy
    operation the source applies is a definition of [Module Pandas] or
    [Module Np], exceptions are values of [Py.exn] threaded through an error
    monad, and the body of [select_chair] is split at the blank lines of the
    source into its stages. *)

From Stdlib Require Import ZArith List String Ascii Bool Lia Sorted.
Import ListNotations.
Local Open Scope string_scope.
Local Open Scope Z_scope.

(** ** Python exceptions and the error monad *)

Module Py.

Inductive exn : Type :=
| NameError (name : string)      (* a free name bound nowhere *)
| KeyError (key : string)        (* a column the frame does not have *)
| IndexError                     (* [x[0]] on an empty sequence *)
| TypeError                      (* [None[1:]] *)
| ValueError                     (* length mismatch, empty population *)
| IndexingError                  (* a boolean key that cannot be aligned *)
| OSError (msg : string).        (* raised by the file reader *)

Inductive result (A : Type) : Type :=
| Ok (a : A)
| Raise (e : exn).

Arguments Ok {A} a.
Arguments Raise {A} e.

Definition bind {A B : Type} (c : result A) (k : A -> result B) : result B :=
  match c with
  | Ok a => k a
  | Raise e => Raise e
  end.

End Py.

Import Py.

Notation "x <- c ;; k" := (Py.bind c (fun x => k))
  (at level 61, c at next level, right associativity).

(** ** The part of pandas the program uses *)

Module Pandas.

(** A cell of the table: the roster holds free-form strings; a missing value
    is the float NaN. *)
Inductive cell : Type :=
| Str (s : string)
| NaN.

(** Element-wise [==] of a cell with a cell: NaN is equal to nothing. *)
Definition cell_eq (a b : cell) : bool :=
  match a, b with
  | Str x, Str y => String.eqb x y
  | _, _ => false
  end.

(** Element-wise [+] on an object column: strings concatenate, and the
    result is missing as soon as one operand is. *)
Definition cell_add (a b : cell) : cell :=
  match a, b with
  | Str x, Str y => Str (x ++ y)
  | _, _ => NaN
  end.

(** Row labels. [read_data] produces the floats 2.0, 3.0, ...; they are
    integral and only compared and sorted, so they are kept as integers. *)
Definition label : Type := Z.

Record DataFrame : Type := mkDF {
  columns : list string;
  rows : list (label * list cell)
}.

Definition Series (A : Type) : Type := list (label * A).

Definition index (df : DataFrame) : list label := map fst (rows df).

Fixpoint lookup {A : Type} (l : label) (s : list (label * A)) : option A :=
  match s with
  | [] => None
  | (k, v) :: s' => if Z.eqb l k then Some v else lookup l s'
  end.

Fixpoint col_pos (name : string) (cols : list string) : option nat :=
  match cols with
  | [] => None
  | c :: cols' =>
      if String.eqb name c then Some O
      else option_map S (col_pos name cols')
  end.

(** The value a row holds in a column of the frame ([NaN] when absent). *)
Definition field (df : DataFrame) (name : string) (r : list cell) : cell :=
  match col_pos name (columns df) with
  | Some p => nth p r NaN
  | None => NaN
  end.

(** [df[name]]: the column as a Series over the index of [df]. *)
Definition getitem_col (df : DataFrame) (name : string) : result (Series cell) :=
  match col_pos name (columns df) with
  | None => Raise (KeyError name)
  | Some p => Ok (map (fun r => (fst r, nth p (snd r) NaN)) (rows df))
  end.

(** [s == v] and [s != v] against a scalar string. *)
Definition series_eq (s : Series cell) (v : string) : Series bool :=
  map (fun e => (fst e, cell_eq (snd e) (Str v))) s.

Definition series_ne (s : Series cell) (v : string) : Series bool :=
  map (fun e => (fst e, negb (cell_eq (snd e) (Str v)))) s.

(** [x & y] of two boolean Series over one index (the program only combines
    columns of one frame). *)
Definition series_and (x y : Series bool) : Series bool :=
  map (fun p => (fst (fst p), snd (fst p) && snd (snd p))) (combine x y).

(** [s == vs] against a list: pandas compares position by position and
    refuses operands of different lengths. *)
Definition series_eq_list (s : Series cell) (vs : list string) : result (Series bool) :=
  if Nat.eqb (List.length s) (List.length vs)
  then Ok (map (fun p => (fst (fst p), cell_eq (snd (fst p)) (Str (snd p))))
               (combine s vs))
  else Raise ValueError.

Fixpoint take_mask {A : Type} (m : list bool) (rs : list A) : list A :=
  match m, rs with
  | b :: m', r :: rs' => if b then r :: take_mask m' rs' else take_mask m' rs'
  | _, _ => []
  end.

(** Reindexing a boolean key to an index: every label must be found. *)
Fixpoint reindex_mask (key : Series bool) (ix : list label) : result (list bool) :=
  match ix with
  | [] => Ok []
  | l :: ix' =>
      match lookup l key with
      | None => Raise IndexingError
      | Some b => bs <- reindex_mask key ix' ;; Ok (b :: bs)
      end
  end.

(** [df[key]] with a boolean Series: the key is used by position when its
    index is the frame's, and is reindexed to the frame's index otherwise. *)
Definition getitem_bool (df : DataFrame) (key : Series bool) : result DataFrame :=
  if list_eq_dec Z.eq_dec (map fst key) (index df)
  then Ok (mkDF (columns df) (take_mask (map snd key) (rows df)))
  else bs <- reindex_mask key (index df) ;;
       Ok (mkDF (columns df) (take_mask bs (rows df))).

(** Sorting an index and dropping repeated labels. *)
Fixpoint insert_uniq (x : label) (l : list label) : list label :=
  match l with
  | [] => [x]
  | y :: l' =>
      if Z.ltb x y then x :: l
      else if Z.eqb x y then l
      else y :: insert_uniq x l'
  end.

Definition sort_uniq (l : list label) : list label :=
  fold_right insert_uniq [] l.

(** The outer join of two indexes, as frame arithmetic aligns its operands:
    equal indexes are taken as they are, anything else is the sorted
    union. *)
Definition union_index (a b : list label) : list label :=
  if list_eq_dec Z.eq_dec a b then a
  else sort_uniq (a ++ b).

Definition nan_row (width : nat) : list cell := repeat NaN width.

(** One row of [a + b] after alignment: a label missing on either side
    gives a row of NaN. *)
Definition row_add (width : nat) (x y : option (list cell)) : list cell :=
  match x, y with
  | Some r1, Some r2 => map (fun p => cell_add (fst p) (snd p)) (combine r1 r2)
  | _, _ => nan_row width
  end.

(** [a + b] for two frames with the same columns: element-wise addition
    over the outer join of the indexes. *)
Definition frame_add (a b : DataFrame) : DataFrame :=
  mkDF (columns a)
       (map (fun l => (l, row_add (List.length (columns a))
                                  (lookup l (rows a)) (lookup l (rows b))))
            (union_index (index a) (index b))).

Definition reindex_like (x a : DataFrame) : DataFrame :=
  mkDF (columns x)
       (map (fun l => (l, match lookup l (rows x) with
                          | Some r => r
                          | None => nan_row (List.length (columns x))
                          end))
            (index a)).

(** [a += b]: the sum, brought back to the index of [a]. *)
Definition frame_iadd (a b : DataFrame) : DataFrame :=
  reindex_like (frame_add a b) a.

(** What [df.loc[l]] gives back: a row when the label occurs once, a frame
    of the matching rows when it is repeated. *)
Inductive selection : Type :=
| Row (l : label) (r : list cell)
| Frame (df : DataFrame).

Definition loc (df : DataFrame) (l : label) : result selection :=
  match filter (fun r => Z.eqb (fst r) l) (rows df) with
  | [] => Raise (KeyError "label")
  | [r] => Ok (Row (fst r) (snd r))
  | rs => Ok (Frame (mkDF (columns df) rs))
  end.

(** The index [pd.read_csv] gives a frame of [n] rows: 0, 1, ..., n-1. *)
Definition range_index (n : nat) : list label := map Z.of_nat (seq 0 n).

(** [df.index += k] *)
Definition index_shift (df : DataFrame) (k : Z) : DataFrame :=
  mkDF (columns df) (map (fun r => (fst r + k, snd r)) (rows df)).

End Pandas.

Import Pandas.

(** ** The part of numpy the program uses *)

Module Np.

(** A query value is a string or a list of strings. *)
Inductive area : Type :=
| AStr (s : string)
| AList (l : list string).

(** [np.size]: a string is a scalar. *)
Definition size (a : area) : nat :=
  match a with
  | AStr _ => 1%nat
  | AList l => List.length l
  end.

Definition char_string (c : ascii) : string := String c EmptyString.

(** A string holds the UTF-8 bytes of a Python string; a byte 10xxxxxx
    continues the character the bytes before it began. *)
Definition is_continuation (c : ascii) : bool :=
  (Nat.leb 128 (nat_of_ascii c) && Nat.ltb (nat_of_ascii c) 192)%bool.

(** The characters of a string, each as a string of its own. *)
Fixpoint chars (bs : list ascii) : list string :=
  match bs with
  | [] => []
  | b :: bs' =>
      match chars bs' with
      | g :: gs =>
          if is_continuation (hd b bs') then String b g :: gs
          else char_string b :: g :: gs
      | [] => [char_string b]
      end
  end.

(** [a[0]] *)
Definition item0 (a : area) : result string :=
  match a with
  | AStr s =>
      match chars (list_ascii_of_string s) with
      | c :: _ => Ok c
      | [] => Raise IndexError
      end
  | AList (x :: _) => Ok x
  | AList [] => Raise IndexError
  end.

(** The values [for x in a[1:]] runs over: slicing a string gives a string,
    whose elements are its characters. *)
Definition tail_items (a : area) : list string :=
  match a with
  | AStr s => tl (chars (list_ascii_of_string s))
  | AList l => tl l
  end.

(** [np.random.choice(np.array(ix))]: [draw] stands for the state of the
    generator; an empty population is refused. *)
Definition random_choice (draw : nat) (ix : list label) : result label :=
  match ix with
  | [] => Raise ValueError
  | l :: _ => Ok (nth (draw mod List.length ix) ix l)
  end.

End Np.

Import Np.

(** ** The program *)

Module Chairs.

(** Lines 82-87: the primary-expertise stage. *)
Definition primary_stage (df : DataFrame) (area1_data : Series cell)
    (area1 : area) : result DataFrame :=
  if Nat.eqb (size area1) 1 then
    match area1 with
    | AStr v => getitem_bool df (series_eq area1_data v)
    | AList vs => key <- series_eq_list area1_data vs ;; getitem_bool df key
    end
  else
    a0 <- item0 area1 ;;
    df_selected <- getitem_bool df (series_eq area1_data a0) ;;
    fold_left
      (fun acc a =>
         df_selected <- acc ;;
         part <- getitem_bool df_selected (series_eq area1_data a) ;;
         Ok (frame_iadd df_selected part))
      (tail_items area1) (Ok df_selected).

(** Lines 89-98: the secondary-expertise stage. *)
Definition secondary_stage (df_selected : DataFrame) (area2_data : Series cell)
    (area2 : option area) : result DataFrame :=
  match area2 with
  | Some area2 =>
      if Nat.eqb (size area2) 1 then
        match area2 with
        | AStr v => getitem_bool df_selected (series_eq area2_data v)
        | AList vs =>
            key <- series_eq_list area2_data vs ;; getitem_bool df_selected key
        end
      else
        a0 <- item0 area2 ;;
        df_selected_new <- getitem_bool df_selected (series_eq area2_data a0) ;;
        fold_left
          (fun acc a =>
             df_selected_new <- acc ;;
             part <- getitem_bool df_selected (series_eq area2_data a) ;;
             Ok (frame_iadd df_selected_new part))
          (tail_items area2) (Ok df_selected_new)
  | None => Ok df_selected
  end.

(** Lines 100-109: the tertiary-expertise stage. Its loop runs over
    [area2[1:]], as line 106 has it. *)
Definition tertiary_stage (df_selected_new : DataFrame) (area3_data : Series cell)
    (area2 area3 : option area) : result DataFrame :=
  match area3 with
  | Some area3 =>
      if Nat.eqb (size area3) 1 then
        match area3 with
        | AStr v => getitem_bool df_selected_new (series_eq area3_data v)
        | AList vs =>
            key <- series_eq_list area3_data vs ;;
            getitem_bool df_selected_new key
        end
      else
        a0 <- item0 area3 ;;
        df_selected_all <- getitem_bool df_selected_new (series_eq area3_data a0) ;;
        items <- match area2 with
                 | Some area2 => Ok (tail_items area2)
                 | None => Raise TypeError
                 end ;;
        fold_left
          (fun acc a =>
             df_selected_all <- acc ;;
             part <- getitem_bool df_selected_new (series_eq area3_data a) ;;
             Ok (frame_iadd df_selected_all part))
          items (Ok df_selected_all)
  | None => Ok df_selected_new
  end.

(** Lines 113-118: the schedule-conflict stage. *)
Definition schedule_stage (df_selected_all : DataFrame)
    (session_date session_start session_end : Series cell)
    (date start_time end_time : string) : result DataFrame :=
  df_off_date <- getitem_bool df_selected_all (series_ne session_date date) ;;
  df_on_date <- getitem_bool df_selected_all
                  (series_and
                     (series_and (series_eq session_date date)
                                 (series_ne session_start start_time))
                     (series_ne session_end end_time)) ;;
  Ok (frame_add df_off_date df_on_date).

(** What a call gives back: a frame, one row, or Python's [None] when the
    mode is neither of the two. *)
Inductive output : Type :=
| OutFrame (df : DataFrame)
| OutRow (l : label) (r : list cell)
| OutNone.

(** Lines 120-124: the output stage. *)
Definition output_stage (draw : nat) (df_selected_all : DataFrame)
    (mode : string) : result output :=
  if String.eqb mode "all" then Ok (OutFrame df_selected_all)
  else if String.eqb mode "random" then
    l <- random_choice draw (index df_selected_all) ;;
    s <- loc df_selected_all l ;;
    Ok (match s with
        | Row l r => OutRow l r
        | Frame d => OutFrame d
        end)
  else Ok OutNone.

(** Lines 73-124 once the free name [f] of lines 73-79 is resolved to a
    frame. *)
Definition select_chair_body (f df : DataFrame) (draw : nat) (area1 : area)
    (date start_time end_time : string) (area2 area3 : option area)
    (mode : string) : result output :=
  area1_data <- getitem_col f "area_of_expertise_1" ;;
  area2_data <- getitem_col f "area_of_expertise_2" ;;
  area3_data <- getitem_col f "area_of_expertise_3" ;;
  session_date <- getitem_col f "session_date" ;;
  session_start <- getitem_col f "session_start" ;;
  session_end <- getitem_col f "session_end" ;;
  df_selected <- primary_stage df area1_data area1 ;;
  df_selected_new <- secondary_stage df_selected area2_data area2 ;;
  df_selected_all <- tertiary_stage df_selected_new area3_data area2 area3 ;;
  df_selected_all <- schedule_stage df_selected_all session_date session_start
                       session_end date start_time end_time ;;
  output_stage draw df_selected_all mode.

(** The names a call can see besides its own parameters: the frames bound at
    module level. *)
Definition globals : Type := list (string * DataFrame).

Fixpoint resolve (name : string) (g : globals) : result DataFrame :=
  match g with
  | [] => Raise (NameError name)
  | (n, v) :: g' => if String.eqb name n then Ok v else resolve name g'
  end.

(** [select_chair] run in a module whose global frames are [g]. The name [f]
    is no parameter and is never assigned in the body, so Python looks it up
    among the globals. *)
Definition select_chair_in (g : globals) (draw : nat) (df : DataFrame)
    (area1 : area) (date start_time end_time : string)
    (area2 area3 : option area) (mode : string) : result output :=
  f <- resolve "f" g ;;
  select_chair_body f df draw area1 date start_time end_time area2 area3 mode.

(** The module binds [argparse], [np], [pd], [select_chair], [read_data],
    [main] and [parser] and nothing else: no frame is global. *)
Definition module_globals : globals := [].

Definition select_chair : nat -> DataFrame -> area -> string -> string ->
    string -> option area -> option area -> string -> result output :=
  select_chair_in module_globals.

(** Lines 128-131. [pd.read_csv] is the library's parser, taken as a
    parameter: it gives a frame or raises. *)
Section Loader.

Variable read_csv : string -> result DataFrame.

Definition read_data (filename : string) : result DataFrame :=
  df <- read_csv filename ;;
  Ok (index_shift df 2).

End Loader.

(** The roster of the specification's scenarios, as [read_data] numbers it. *)
Definition roster_columns : list string :=
  ["area_of_expertise_1"; "area_of_expertise_2"; "area_of_expertise_3";
   "session_date"; "session_start"; "session_end"].

Definition P1 : list cell :=
  [Str "stars"; NaN; NaN; Str "2020-01-01"; Str "10:00"; Str "11:00"].

Definition P2 : list cell :=
  [Str "stars"; NaN; NaN; Str "2020-02-02"; Str "09:00"; Str "10:00"].

Definition roster : DataFrame := mkDF roster_columns [(2, P1); (3, P2)].

(** A roster whose two people differ in every area of expertise. *)
Definition S1 : list cell :=
  [Str "stars"; Str "x-ray"; Str "pulsars";
   Str "2020-01-01"; Str "10:00"; Str "11:00"].

Definition S2 : list cell :=
  [Str "galaxies"; Str "radio"; Str "agn";
   Str "2020-02-02"; Str "09:00"; Str "10:00"].

Definition mixed_roster : DataFrame := mkDF roster_columns [(2, S1); (3, S2)].

(** A file system with one roster file, as [pd.read_csv] parses it: rows
    numbered from 0. *)
Definition sample_read_csv (filename : string) : result DataFrame :=
  if String.eqb filename "chairs.csv"
  then Ok (mkDF roster_columns [(0, P1); (1, P2)])
  else Raise (OSError "No such file or directory").

(** What [parse_args] stores for the options of lines 162-191: every one is
    a string, the two optional areas defaulting to the string "None". *)
Record parsed_args : Type := mkParsed {
  p_filename : string;
  p_area1 : string;
  p_date : string;
  p_start_time : string;
  p_end_time : string;
  p_mode : string;
  p_area2 : string;
  p_area3 : string
}.

(** The namespace [parser] returns, once lines 196-200 have replaced the
    string "None" by Python's [None]. *)
Record clargs : Type := mkClargs {
  filename : string;
  area1 : string;
  date : string;
  start_time : string;
  end_time : string;
  mode : string;
  area2 : option string;
  area3 : option string
}.

(** Lines 133-202. [ArgumentParser.parse_args] and [pd.read_csv] are library
    code, taken as parameters: each gives its value or raises. [draw] is the
    state of the random generator. *)
Section CommandLine.

Variable parse_args : list string -> result parsed_args.
Variable read_csv : string -> result DataFrame.
Variable draw : nat.

(** Lines 154-202. *)
Definition parser (argv : list string) : result clargs :=
  a <- parse_args argv ;;
  let area3 := if String.eqb (p_area3 a) "None" then None else Some (p_area3 a) in
  let area2 := if String.eqb (p_area2 a) "None" then None else Some (p_area2 a) in
  Ok (mkClargs (p_filename a) (p_area1 a) (p_date a) (p_start_time a)
               (p_end_time a) (p_mode a) area2 area3).

(** Lines 133-151; the value is what [print] writes. *)
Definition main (argv : list string) : result output :=
  clargs <- parser argv ;;
  df <- read_data read_csv (filename clargs) ;;
  selected <- select_chair draw df (AStr (area1 clargs)) (date clargs)
                (start_time clargs) (end_time clargs)
                (option_map AStr (area2 clargs))
                (option_map AStr (area3 clargs)) (mode clargs) ;;
  Ok selected.

End CommandLine.

(** A command line as [parse_args] reads it when every option is given in
    the long form [--name value] and the two optional areas are left out. *)
Definition sample_parse_args (argv : list string) : result parsed_args :=
  match argv with
  | ["--filename"; f; "--area1"; a; "--date"; d;
     "--start_time"; s; "--end_time"; e] =>
      Ok (mkParsed f a d s e "all" "None" "None")
  | _ => Raise (OSError "usage")
  end.

End Chairs.

Import Chairs.

(** ** Predicates the statements are written with *)

Module Props.

(** A boolean key read off the rows of a frame. *)
Definition row_mask (P : list cell -> bool) (rs : list (label * list cell))
  : Series bool :=
  map (fun r => (fst r, P (snd r))) rs.

(** The value of a boolean key at a label, false when the label is absent. *)
Definition mask_at (key : Series bool) (l : label) : bool :=
  match lookup l key with
  | Some b => b
  | None => false
  end.

(** The two tests of lines 113-116 on one row of the frame the columns were
    read from. *)
Definition off_date (f : DataFrame) (date : string) (r : list cell) : bool :=
  negb (cell_eq (field f "session_date" r) (Str date)).

Definition on_date_free (f : DataFrame) (date start_time end_time : string)
    (r : list cell) : bool :=
  cell_eq (field f "session_date" r) (Str date)
  && negb (cell_eq (field f "session_start" r) (Str start_time))
  && negb (cell_eq (field f "session_end" r) (Str end_time)).

(** The labels each of the two keys of the stage marks. *)
Definition marks_off (f : DataFrame) (date : string) (l : label) : bool :=
  mask_at (row_mask (off_date f date) (rows f)) l.

Definition marks_on (f : DataFrame) (date start_time end_time : string)
    (l : label) : bool :=
  mask_at (row_mask (on_date_free f date start_time end_time) (rows f)) l.

(** The labels the schedule-conflict stage keeps. *)
Definition kept (f : DataFrame) (date start_time end_time : string)
    (l : label) : bool :=
  mask_at (row_mask (fun r => off_date f date r
                              || on_date_free f date start_time end_time r)
                    (rows f)) l.

(** A frame whose rows are all missing values, over the given labels. *)
Definition nan_frame (cols : list string) (ix : list label) : DataFrame :=
  mkDF cols (map (fun l => (l, nan_row (List.length cols))) ix).

(** An index as [read_data] produces it: strictly increasing labels. *)
Definition increasing (ix : list label) : Prop := StronglySorted Z.lt ix.

(** A row is excluded from a frame when its label is no longer there. *)
Definition excluded (out : DataFrame) (l : label) : Prop :=
  ~ In l (index out).

(** The labels whose row of [f] holds the string [v] in a column. *)
Definition area_mark (f : DataFrame) (name v : string) (l : label) : bool :=
  mask_at (row_mask (fun r => cell_eq (field f name r) (Str v)) (rows f)) l.

(** The same for an optional query: no query marks every label. *)
Definition query_mark (f : DataFrame) (name : string) (q : option string)
    (l : label) : bool :=
  match q with
  | Some v => area_mark f name v l
  | None => true
  end.

(** A frame that has the six columns the docstring asks for. *)
Definition has_columns (f : DataFrame) : Prop :=
  forall name, In name roster_columns -> col_pos name (columns f) <> None.

(** The labels a call with string queries keeps, stage after stage. *)
Definition survivors (f : DataFrame) (a1 : string) (a2 a3 : option string)
    (date start_time end_time : string) : list label :=
  filter (kept f date start_time end_time)
    (filter (query_mark f "area_of_expertise_3" a3)
       (filter (query_mark f "area_of_expertise_2" a2)
          (filter (area_mark f "area_of_expertise_1" a1) (index f)))).

(** Every cell of every row of a frame is missing. *)
Definition all_missing (df : DataFrame) : Prop :=
  forall l r, In (l, r) (rows df) -> r = nan_row (List.length (columns df)).

(** The rows of a frame whose label passes a test. *)
Definition restrict (df : DataFrame) (p : label -> bool) : DataFrame :=
  mkDF (columns df) (filter (fun r => p (fst r)) (rows df)).

(** The body of the loop of lines 86-87, as [primary_stage] folds it. *)
Definition primary_step (area1_data : Series cell)
    (acc : result DataFrame) (a : string) : result DataFrame :=
  df_selected <- acc ;;
  part <- getitem_bool df_selected (series_eq area1_data a) ;;
  Ok (frame_iadd df_selected part).

(** What the loop of the primary stage maintains: the labels are labels of
    the roster that hold the first value of the query. *)
Definition marked (df : DataFrame) (a0 : string) (ix : list label) : Prop :=
  forall l, In l ix ->
            In l (index df) /\ area_mark df "area_of_expertise_1" a0 l = true.

End Props.

Import Props.

(** ** Lookups, keys and boolean indexing *)

Section Keys.

Context {A : Type}.

Lemma lookup_in_nodup (key : list (label * A)) (l : label) (v : A) :
  NoDup (map fst key) -> In (l, v) key -> lookup l key = Some v.
Proof.
  induction key as [|[k w] key IH]; simpl; intros Hnd Hin.
  - contradiction.
  - inversion Hnd as [|? ? Hnotin Hnd']; subst.
    destruct Hin as [Heq|Hin].
    + inversion Heq; subst. now rewrite Z.eqb_refl.
    + destruct (Z.eqb_spec l k) as [->|Hne].
      * exfalso. apply Hnotin. apply in_map_iff. now exists (k, v).
      * now apply IH.
Qed.

Lemma lookup_some_in (key : list (label * A)) (l : label) (v : A) :
  lookup l key = Some v -> In l (map fst key).
Proof.
  induction key as [|[k w] key IH]; simpl; intros H.
  - discriminate.
  - destruct (Z.eqb_spec l k) as [->|Hne]; [now left | right; now apply IH].
Qed.

Lemma lookup_none_notin (key : list (label * A)) (l : label) :
  lookup l key = None -> ~ In l (map fst key).
Proof.
  induction key as [|[k w] key IH]; simpl; intros H.
  - tauto.
  - destruct (Z.eqb_spec l k) as [->|Hne]; [discriminate|].
    intros [Heq|Hin]; [congruence | now apply IH].
Qed.

Lemma lookup_in_some (key : list (label * A)) (l : label) :
  In l (map fst key) -> exists v, lookup l key = Some v.
Proof.
  intros Hin. destruct (lookup l key) as [v|] eqn:E.
  - now exists v.
  - exfalso. now apply (lookup_none_notin key l).
Qed.

Lemma lookup_filter_label (p : label -> bool) (rs : list (label * A)) (l : label) :
  lookup l (filter (fun r => p (fst r)) rs) = if p l then lookup l rs else None.
Proof.
  induction rs as [|[k w] rs IH]; simpl.
  - now destruct (p l).
  - destruct (p k) eqn:Hk; simpl.
    + destruct (Z.eqb_spec l k) as [->|Hne]; [now rewrite Hk | exact IH].
    + destruct (Z.eqb_spec l k) as [->|Hne]; [rewrite Hk in IH |- *; exact IH | exact IH].
Qed.

Lemma index_filter_label (p : label -> bool) (rs : list (label * A)) :
  map fst (filter (fun r => p (fst r)) rs) = filter p (map fst rs).
Proof.
  induction rs as [|[k w] rs IH]; simpl; [reflexivity|].
  destruct (p k); simpl; now rewrite IH.
Qed.

Lemma take_mask_positional (P : A -> bool) (rs : list A) :
  take_mask (map P rs) rs = filter P rs.
Proof.
  induction rs as [|r rs IH]; simpl; [reflexivity|].
  destruct (P r); now rewrite IH.
Qed.

End Keys.

Lemma lookup_row_mask (P : list cell -> bool) (rs : list (label * list cell)) (l : label) :
  lookup l (row_mask P rs) = option_map P (lookup l rs).
Proof.
  induction rs as [|[k w] rs IH]; simpl; [reflexivity|].
  destruct (Z.eqb l k); [reflexivity | exact IH].
Qed.

Lemma row_mask_index (P : list cell -> bool) (rs : list (label * list cell)) :
  map fst (row_mask P rs) = map fst rs.
Proof.
  unfold row_mask. rewrite map_map. reflexivity.
Qed.

Lemma reindex_mask_take (key : Series bool) (rs : list (label * list cell)) :
  incl (map fst rs) (map fst key) ->
  exists bs, reindex_mask key (map fst rs) = Ok bs
             /\ take_mask bs rs = filter (fun r => mask_at key (fst r)) rs.
Proof.
  induction rs as [|[k w] rs IH]; simpl; intros Hincl.
  - now exists [].
  - destruct (lookup_in_some key k) as [b Hb].
    { apply Hincl. now left. }
    destruct IH as [bs [Hbs Htake]].
    { intros x Hx. apply Hincl. now right. }
    exists (b :: bs). rewrite Hb, Hbs. simpl. split; [reflexivity|].
    unfold mask_at at 1. rewrite Hb. destruct b; now rewrite Htake.
Qed.

Lemma reindex_mask_self (key full : Series bool) :
  (forall l b, In (l, b) key -> lookup l full = Some b) ->
  reindex_mask full (map fst key) = Ok (map snd key).
Proof.
  induction key as [|[k b] key IH]; simpl; intros H; [reflexivity|].
  rewrite (H k b) by now left.
  rewrite IH; [reflexivity|].
  intros l c Hin. apply H. now right.
Qed.

(** Boolean indexing with a key whose labels are distinct and cover the
    frame keeps the rows the key marks, in their order. *)
Lemma getitem_bool_filter (sel : DataFrame) (key : Series bool) :
  NoDup (map fst key) ->
  incl (index sel) (map fst key) ->
  getitem_bool sel key =
    Ok (mkDF (columns sel) (filter (fun r => mask_at key (fst r)) (rows sel))).
Proof.
  intros Hnd Hincl. unfold getitem_bool.
  destruct (reindex_mask_take key (rows sel) Hincl) as [bs [Hbs Htake]].
  destruct (list_eq_dec Z.eq_dec (map fst key) (index sel)) as [Heq|Hne].
  - assert (Hself : reindex_mask key (map fst key) = Ok (map snd key)).
    { apply reindex_mask_self. intros l b Hin. now apply lookup_in_nodup. }
    unfold index in Heq. rewrite Heq, Hbs in Hself.
    inversion Hself; subst. now rewrite Htake.
  - unfold index. rewrite Hbs. simpl. now rewrite Htake.
Qed.

(** ** Sorted indexes and their outer join *)

Lemma increasing_nodup (ix : list label) : increasing ix -> NoDup ix.
Proof.
  induction 1 as [|x ix Hs IH Hall]; constructor; [|exact IH].
  intros Hin. rewrite Forall_forall in Hall. specialize (Hall x Hin). lia.
Qed.

Lemma increasing_filter (p : label -> bool) (ix : list label) :
  increasing ix -> increasing (filter p ix).
Proof.
  induction 1 as [|x ix Hs IH Hall]; simpl; [constructor|].
  destruct (p x); [|exact IH].
  constructor; [exact IH|].
  rewrite Forall_forall in *. intros y Hy.
  apply filter_In in Hy. now apply Hall.
Qed.

Lemma insert_uniq_in (x : label) (l : list label) (z : label) :
  In z (insert_uniq x l) <-> z = x \/ In z l.
Proof.
  induction l as [|y l IH]; simpl.
  - intuition.
  - destruct (Z.ltb_spec x y); simpl; [intuition|].
    destruct (Z.eqb_spec x y); simpl; [subst; intuition|].
    rewrite IH. intuition.
Qed.

Lemma insert_uniq_increasing (x : label) (l : list label) :
  increasing l -> increasing (insert_uniq x l).
Proof.
  induction 1 as [|y l Hs IH Hall]; simpl.
  - repeat constructor.
  - rewrite Forall_forall in Hall.
    destruct (Z.ltb_spec x y).
    + constructor; [now constructor; [|apply Forall_forall]|].
      constructor; [assumption|].
      apply Forall_forall. intros z Hz. specialize (Hall z Hz). lia.
    + destruct (Z.eqb_spec x y).
      * constructor; [assumption | now apply Forall_forall].
      * constructor; [exact IH|].
        apply Forall_forall. intros z Hz.
        apply insert_uniq_in in Hz. destruct Hz as [->|Hz]; [lia | now apply Hall].
Qed.

Lemma sort_uniq_in (l : list label) (z : label) :
  In z (sort_uniq l) <-> In z l.
Proof.
  induction l as [|x l IH]; simpl; [tauto|].
  rewrite insert_uniq_in, IH. intuition.
Qed.

Lemma sort_uniq_increasing (l : list label) : increasing (sort_uniq l).
Proof.
  induction l as [|x l IH]; simpl; [constructor|].
  now apply insert_uniq_increasing.
Qed.

(** Two increasing indexes with the same labels are the same index. *)
Lemma increasing_ext (a : list label) :
  increasing a -> forall b, increasing b ->
  (forall x, In x a <-> In x b) -> a = b.
Proof.
  induction 1 as [|x a Hs IH Ha]; intros b Hb Hext.
  - destruct b as [|y b]; [reflexivity|].
    exfalso. apply (proj2 (Hext y)). now left.
  - destruct Hb as [|y b Hsb Hb].
    + exfalso. apply (proj1 (Hext x)). now left.
    + rewrite Forall_forall in Ha, Hb.
      assert (Hxy : x = y).
      { destruct (proj1 (Hext x) (or_introl eq_refl)) as [E|Hin]; [now symmetry|].
        destruct (proj2 (Hext y) (or_introl eq_refl)) as [E|Hin']; [exact E|].
        specialize (Ha y Hin'). specialize (Hb x Hin). lia. }
      subst y. f_equal. apply IH; [exact Hsb|].
      intros z. split; intros Hz.
      * destruct (proj1 (Hext z) (or_intror Hz)) as [E|Hin]; [|exact Hin].
        subst z. specialize (Ha x Hz). lia.
      * destruct (proj2 (Hext z) (or_intror Hz)) as [E|Hin]; [|exact Hin].
        subst z. specialize (Hb x Hz). lia.
Qed.

Lemma union_index_spec (a b : list label) :
  increasing a -> increasing b ->
  increasing (union_index a b)
  /\ forall x, In x (union_index a b) <-> In x a \/ In x b.
Proof.
  intros Ha Hb. unfold union_index.
  destruct (list_eq_dec Z.eq_dec a b) as [->|Hne].
  - split; [exact Hb | intros x; tauto].
  - split; [apply sort_uniq_increasing|].
    intros z. rewrite sort_uniq_in, in_app_iff. tauto.
Qed.

(** The outer join of two selections of one increasing index is the
    selection by either test. *)
Lemma union_index_filter (p q : label -> bool) (ix : list label) :
  increasing ix ->
  union_index (filter p ix) (filter q ix) = filter (fun l => p l || q l) ix.
Proof.
  intros Hix.
  destruct (union_index_spec (filter p ix) (filter q ix)) as [Hinc Hin];
    try now apply increasing_filter.
  apply increasing_ext; [exact Hinc | now apply increasing_filter |].
  intros x. rewrite Hin, !filter_In, orb_true_iff. tauto.
Qed.

(** ** The keys the stages build *)

Lemma getitem_col_field (f : DataFrame) (name : string) (s : Series cell) :
  getitem_col f name = Ok s ->
  s = map (fun r => (fst r, field f name (snd r))) (rows f).
Proof.
  unfold getitem_col, field.
  destruct (col_pos name (columns f)); intros H; inversion H; reflexivity.
Qed.

Lemma getitem_col_index (f : DataFrame) (name : string) (s : Series cell) :
  getitem_col f name = Ok s -> map fst s = index f.
Proof.
  intros H. rewrite (getitem_col_field f name s H), map_map. reflexivity.
Qed.

Lemma series_eq_row_mask (f : DataFrame) (name v : string) (s : Series cell) :
  getitem_col f name = Ok s ->
  series_eq s v = row_mask (fun r => cell_eq (field f name r) (Str v)) (rows f).
Proof.
  intros H. rewrite (getitem_col_field f name s H).
  unfold series_eq, row_mask. rewrite map_map. reflexivity.
Qed.

Lemma series_ne_row_mask (f : DataFrame) (name v : string) (s : Series cell) :
  getitem_col f name = Ok s ->
  series_ne s v = row_mask (fun r => negb (cell_eq (field f name r) (Str v))) (rows f).
Proof.
  intros H. rewrite (getitem_col_field f name s H).
  unfold series_ne, row_mask. rewrite map_map. reflexivity.
Qed.

Lemma series_and_row_mask (P Q : list cell -> bool) (rs : list (label * list cell)) :
  series_and (row_mask P rs) (row_mask Q rs) = row_mask (fun r => P r && Q r) rs.
Proof.
  unfold series_and, row_mask.
  induction rs as [|r rs IH]; simpl; [reflexivity | now rewrite IH].
Qed.

Lemma mask_at_row_mask (P : list cell -> bool) (rs : list (label * list cell)) (l : label) :
  mask_at (row_mask P rs) l =
    match lookup l rs with
    | Some r => P r
    | None => false
    end.
Proof.
  unfold mask_at. rewrite lookup_row_mask. now destruct (lookup l rs).
Qed.

(** ** The schedule-conflict stage, in general *)

Section Schedule.

Variables (f : DataFrame) (session_date session_start session_end : Series cell).
Variables (date start_time end_time : string).

Hypothesis Hdate : getitem_col f "session_date" = Ok session_date.
Hypothesis Hstart : getitem_col f "session_start" = Ok session_start.
Hypothesis Hend : getitem_col f "session_end" = Ok session_end.
Hypothesis Hnodup : NoDup (index f).

Lemma kept_split (l : label) :
  kept f date start_time end_time l
  = marks_off f date l || marks_on f date start_time end_time l.
Proof.
  unfold kept, marks_off, marks_on. rewrite !mask_at_row_mask.
  now destruct (lookup l (rows f)).
Qed.

Lemma off_on_disjoint (l : label) :
  marks_off f date l = true -> marks_on f date start_time end_time l = false.
Proof.
  unfold marks_off, marks_on. rewrite !mask_at_row_mask.
  destruct (lookup l (rows f)) as [r|]; [|reflexivity].
  unfold off_date, on_date_free.
  destruct (cell_eq (field f "session_date" r) (Str date)); simpl; congruence.
Qed.

(** The stage keeps the labels [kept] marks, and every cell of every row
    it returns is a missing value. *)
Lemma schedule_stage_general (sel : DataFrame) :
  increasing (index sel) ->
  incl (index sel) (index f) ->
  schedule_stage sel session_date session_start session_end
                 date start_time end_time =
    Ok (nan_frame (columns sel)
                  (filter (kept f date start_time end_time) (index sel))).
Proof.
  intros Hinc Hincl. unfold schedule_stage.
  rewrite (series_ne_row_mask f _ date _ Hdate).
  rewrite (series_eq_row_mask f _ date _ Hdate).
  rewrite (series_ne_row_mask f _ start_time _ Hstart).
  rewrite (series_ne_row_mask f _ end_time _ Hend).
  rewrite !series_and_row_mask.
  rewrite getitem_bool_filter;
    [| rewrite row_mask_index; exact Hnodup
     | rewrite row_mask_index; exact Hincl].
  simpl.
  rewrite getitem_bool_filter;
    [| rewrite row_mask_index; exact Hnodup
     | rewrite row_mask_index; exact Hincl].
  simpl. unfold frame_add, nan_frame, index. simpl. f_equal. f_equal.
  change (fun r : label * list cell =>
            mask_at (row_mask (fun r0 => negb (cell_eq (field f "session_date" r0) (Str date))) (rows f)) (fst r))
    with (fun r : label * list cell => marks_off f date (fst r)).
  change (fun r : label * list cell =>
            mask_at (row_mask (fun r0 =>
               cell_eq (field f "session_date" r0) (Str date)
               && negb (cell_eq (field f "session_start" r0) (Str start_time))
               && negb (cell_eq (field f "session_end" r0) (Str end_time))) (rows f)) (fst r))
    with (fun r : label * list cell =>
            marks_on f date start_time end_time (fst r)).
  rewrite !index_filter_label.
  rewrite union_index_filter by exact Hinc.
  rewrite (filter_ext _ _ kept_split).
  apply map_ext_in. intros l Hl. f_equal.
  rewrite !lookup_filter_label.
  destruct (marks_off f date l) eqn:Hoff.
  - rewrite (off_on_disjoint l Hoff). unfold row_add.
    now destruct (lookup l (rows sel)).
  - reflexivity.
Qed.

End Schedule.

(** ** Cells and small list facts *)

Lemma cell_eq_str (c : cell) (v : string) :
  cell_eq c (Str v) = true <-> c = Str v.
Proof.
  destruct c as [x|]; simpl.
  - rewrite String.eqb_eq. split; congruence.
  - split; discriminate.
Qed.

Lemma filter_idem {A : Type} (p : A -> bool) (l : list A) :
  filter p (filter p l) = filter p l.
Proof.
  induction l as [|x l IH]; simpl; [reflexivity|].
  destruct (p x) eqn:E; simpl; [rewrite E, IH; reflexivity | exact IH].
Qed.

Lemma nan_frame_index (cols : list string) (ix : list label) :
  index (nan_frame cols ix) = ix.
Proof.
  unfold index, nan_frame. simpl. rewrite map_map. simpl. apply map_id.
Qed.

(** ** The output stage, in general *)

Lemma loc_unique (df : DataFrame) (l : label) :
  NoDup (index df) -> In l (index df) ->
  exists r, loc df l = Ok (Row l r) /\ In (l, r) (rows df).
Proof.
  unfold loc, index. destruct df as [cols rs]. simpl.
  induction rs as [|[k w] rs IH]; simpl; intros Hnd Hin; [contradiction|].
  inversion Hnd as [|? ? Hnotin Hnd']; subst.
  destruct (Z.eqb_spec k l) as [->|Hne].
  - exists w. split; [|now left].
    assert (Hnone : filter (fun r : label * list cell => Z.eqb (fst r) l) rs = []).
    { clear -Hnotin. induction rs as [|[k' w'] rs IH]; simpl; [reflexivity|].
      destruct (Z.eqb_spec k' l) as [->|Hne].
      - exfalso. apply Hnotin. now left.
      - apply IH. intros H. apply Hnotin. now right. }
    unfold label in Hnone. rewrite Hnone. reflexivity.
  - destruct Hin as [Heq|Hin]; [congruence|].
    destruct (IH Hnd' Hin) as [r [Hloc Hr]].
    exists r. split; [exact Hloc | now right].
Qed.

Lemma random_choice_member (draw : nat) (ix : list label) :
  ix <> [] -> exists l, random_choice draw ix = Ok l /\ In l ix.
Proof.
  destruct ix as [|x ix]; [congruence|]. intros _.
  eexists. split; [reflexivity|].
  apply nth_In. apply Nat.mod_upper_bound. simpl. lia.
Qed.

(** On a frame with distinct labels and at least one row, the random mode
    returns one of the rows the other mode returns. *)
Lemma output_stage_random_member (draw : nat) (sel : DataFrame) :
  NoDup (index sel) -> rows sel <> [] ->
  exists l r, output_stage draw sel "random" = Ok (OutRow l r)
              /\ output_stage draw sel "all" = Ok (OutFrame sel)
              /\ In (l, r) (rows sel).
Proof.
  intros Hnd Hne.
  destruct (random_choice_member draw (index sel)) as [l [Hl Hin]].
  { unfold index. destruct (rows sel); [congruence | discriminate]. }
  destruct (loc_unique sel l Hnd Hin) as [r [Hloc Hr]].
  exists l, r. unfold output_stage. simpl. rewrite Hl. simpl. rewrite Hloc.
  simpl. auto.
Qed.

(** On a frame without rows, the first mode returns it and the random mode
    raises. *)
Lemma output_stage_empty (draw : nat) (cols : list string) :
  output_stage draw (mkDF cols []) "all" = Ok (OutFrame (mkDF cols []))
  /\ output_stage draw (mkDF cols []) "random" = Raise ValueError.
Proof.
  split; reflexivity.
Qed.

(** ** The claims *)

(** C1. The body of [select_chair] reads its six columns from the name [f],
    not from its parameter [df]; the module binds no such name, so every
    call, whatever the roster and the query, stops at line 73 with a
    NameError before any filtering. *)
Theorem select_chair_undefined_name (draw : nat) (df : DataFrame) (area1 : area)
    (date start_time end_time : string) (area2 area3 : option area)
    (mode : string) :
  select_chair draw df area1 date start_time end_time area2 area3 mode
  = Raise (NameError "f").
Proof.
  reflexivity.
Qed.

(** C2. On the roster of the scenarios and the window 2020-01-01,
    08:00-09:00, the schedule-conflict stage keeps the labels of P1 and P2,
    as the claim says, but returns them with every cell missing: the sum of
    the two selections is an addition of frames, not their union. *)
Theorem schedule_stage_alters_rows :
  exists sd ss se,
    getitem_col roster "session_date" = Ok sd
    /\ getitem_col roster "session_start" = Ok ss
    /\ getitem_col roster "session_end" = Ok se
    /\ schedule_stage roster sd ss se "2020-01-01" "08:00" "09:00"
       = Ok (nan_frame roster_columns [2; 3])
    /\ nan_frame roster_columns [2; 3] <> roster.
Proof.
  do 3 eexists. repeat split; try reflexivity.
  discriminate.
Qed.

(** C3. On a roster with one person in "stars" and one in "galaxies" (and
    likewise for the second and third areas), the filter on the two values
    returns the first person only, every cell missing, at each of the three
    stages, while the two single-value filters return one unaltered row
    each. The third stage, whose loop runs over the second query, raises
    when no second query is given. *)
Theorem multi_value_filter_is_not_union :
  exists a1 a2 a3,
    getitem_col mixed_roster "area_of_expertise_1" = Ok a1
    /\ getitem_col mixed_roster "area_of_expertise_2" = Ok a2
    /\ getitem_col mixed_roster "area_of_expertise_3" = Ok a3
    /\ primary_stage mixed_roster a1 (AStr "stars")
       = Ok (mkDF roster_columns [(2, S1)])
    /\ primary_stage mixed_roster a1 (AStr "galaxies")
       = Ok (mkDF roster_columns [(3, S2)])
    /\ primary_stage mixed_roster a1 (AList ["stars"; "galaxies"])
       = Ok (nan_frame roster_columns [2])
    /\ secondary_stage mixed_roster a2 (Some (AList ["x-ray"; "radio"]))
       = Ok (nan_frame roster_columns [2])
    /\ tertiary_stage mixed_roster a3 (Some (AList ["x-ray"; "radio"]))
                      (Some (AList ["pulsars"; "agn"]))
       = Ok (nan_frame roster_columns [2])
    /\ tertiary_stage mixed_roster a3 None (Some (AList ["pulsars"; "agn"]))
       = Raise TypeError.
Proof.
  do 3 eexists. repeat split; reflexivity.
Qed.

(** C4, as stated, fails: with the window 2020-01-01, 10:00-12:00, P1 is on
    the excluded date and only its start time matches, yet the stage
    excludes it. *)
Lemma schedule_excludes_on_one_matching_time :
  exists sd ss se out,
    getitem_col roster "session_date" = Ok sd
    /\ getitem_col roster "session_start" = Ok ss
    /\ getitem_col roster "session_end" = Ok se
    /\ schedule_stage roster sd ss se "2020-01-01" "10:00" "12:00" = Ok out
    /\ lookup 2 (rows roster) = Some P1
    /\ field roster "session_date" P1 = Str "2020-01-01"
    /\ excluded out 2
    /\ ~ (field roster "session_start" P1 = Str "10:00"
          /\ field roster "session_end" P1 = Str "12:00").
Proof.
  do 4 eexists. repeat split; try reflexivity.
  - unfold excluded. simpl. intros [H|[]]. discriminate.
  - intros [_ H]. discriminate.
Qed.

(** C4, amended. The columns being those of a frame [f] with distinct
    labels, and [sel] a frame with increasing labels taken from [f]: the
    schedule-conflict stage succeeds on [sel] and, applied to its own
    result, returns that result again; a row whose date differs from the
    excluded date is not excluded; a row on the excluded date is excluded if
    and only if its start equals the excluded start OR its end equals the
    excluded end. *)
Theorem schedule_exclusion_idempotent_conservative
    (f sel : DataFrame) (sd ss se : Series cell) (date start_time end_time : string) :
  getitem_col f "session_date" = Ok sd ->
  getitem_col f "session_start" = Ok ss ->
  getitem_col f "session_end" = Ok se ->
  NoDup (index f) ->
  increasing (index sel) ->
  incl (index sel) (index f) ->
  exists out,
    schedule_stage sel sd ss se date start_time end_time = Ok out
    /\ schedule_stage out sd ss se date start_time end_time = Ok out
    /\ forall l r,
         In l (index sel) -> lookup l (rows f) = Some r ->
         (field f "session_date" r <> Str date -> ~ excluded out l)
         /\ (field f "session_date" r = Str date ->
             (excluded out l <->
              field f "session_start" r = Str start_time
              \/ field f "session_end" r = Str end_time)).
Proof.
  intros Hd Hs He Hnd Hinc Hincl.
  set (ix := filter (kept f date start_time end_time) (index sel)).
  exists (nan_frame (columns sel) ix).
  split; [now apply schedule_stage_general|].
  split.
  - rewrite (schedule_stage_general f sd ss se date start_time end_time Hd Hs He Hnd).
    + rewrite nan_frame_index. unfold ix. rewrite filter_idem. reflexivity.
    + rewrite nan_frame_index. now apply increasing_filter.
    + rewrite nan_frame_index. intros x Hx. apply filter_In in Hx. now apply Hincl.
  - intros l r Hl Hr. unfold excluded. rewrite nan_frame_index. unfold ix.
    rewrite filter_In. unfold kept. rewrite mask_at_row_mask, Hr.
    unfold off_date, on_date_free.
    pose proof (cell_eq_str (field f "session_date" r) date) as Ed.
    pose proof (cell_eq_str (field f "session_start" r) start_time) as Es.
    pose proof (cell_eq_str (field f "session_end" r) end_time) as Ee.
    destruct (cell_eq (field f "session_date" r) (Str date));
      destruct (cell_eq (field f "session_start" r) (Str start_time));
      destruct (cell_eq (field f "session_end" r) (Str end_time));
      simpl; intuition (auto; try congruence).
Qed.

Lemma schedule_exclusion_witness :
  exists out,
    schedule_stage roster
      (map (fun r => (fst r, field roster "session_date" (snd r))) (rows roster))
      (map (fun r => (fst r, field roster "session_start" (snd r))) (rows roster))
      (map (fun r => (fst r, field roster "session_end" (snd r))) (rows roster))
      "2020-01-01" "10:00" "11:00" = Ok out
    /\ excluded out 2 /\ ~ excluded out 3.
Proof.
  destruct (schedule_exclusion_idempotent_conservative roster roster
              (map (fun r => (fst r, field roster "session_date" (snd r))) (rows roster))
              (map (fun r => (fst r, field roster "session_start" (snd r))) (rows roster))
              (map (fun r => (fst r, field roster "session_end" (snd r))) (rows roster))
              "2020-01-01" "10:00" "11:00")
    as [out [Hout [_ Hrows]]].
  - reflexivity.
  - reflexivity.
  - reflexivity.
  - repeat constructor; simpl; intuition discriminate.
  - repeat constructor; simpl; lia.
  - apply incl_refl.
  - exists out. split; [exact Hout|]. split.
    + apply (Hrows 2 P1); [simpl; auto | reflexivity | reflexivity |].
      left. reflexivity.
    + apply (Hrows 3 P2); [simpl; auto | reflexivity |].
      discriminate.
Defined.

(** C5. The scenario with the window 2020-01-01, 08:00-09:00 does not return
    P1 and P2 with their values: the call raises NameError at line 73; and
    were [f] bound to the roster, the frame returned would hold the two
    labels with every cell missing. *)
Theorem scenario_other_window_fails (draw : nat) :
  select_chair draw roster (AStr "stars") "2020-01-01" "08:00" "09:00"
               None None "all"
  = Raise (NameError "f")
  /\ select_chair_in [("f", roster)] draw roster (AStr "stars")
                     "2020-01-01" "08:00" "09:00" None None "all"
     = Ok (OutFrame (nan_frame roster_columns [2; 3]))
  /\ nan_frame roster_columns [2; 3] <> roster.
Proof.
  repeat split; try reflexivity. discriminate.
Qed.

(** C6. A query that matches no row of the roster raises NameError in the
    mode "all" as in the mode "random"; with [f] bound to the roster the
    first mode would return the empty frame and the second raise
    ValueError. *)
Theorem no_match_call_raises (draw : nat) :
  select_chair draw roster (AStr "planets") "2020-01-01" "10:00" "11:00"
               None None "all"
  = Raise (NameError "f")
  /\ select_chair draw roster (AStr "planets") "2020-01-01" "10:00" "11:00"
                  None None "random"
     = Raise (NameError "f")
  /\ select_chair_in [("f", roster)] draw roster (AStr "planets")
                     "2020-01-01" "10:00" "11:00" None None "all"
     = Ok (OutFrame (mkDF roster_columns []))
  /\ select_chair_in [("f", roster)] draw roster (AStr "planets")
                     "2020-01-01" "10:00" "11:00" None None "random"
     = Raise ValueError.
Proof.
  repeat split; reflexivity.
Qed.

(** C7. The primary-expertise stage does not return the rows of the roster
    whose first area is the query: the column it compares comes from the
    name [f] of line 73, not from the roster. The call raises NameError
    before the stage; and with [f] naming another frame with the same
    labels, the stage applied to the roster with the query "galaxies"
    returns P2, whose first area is "stars", while no row of the roster
    holds "galaxies". *)
Theorem primary_stage_reads_other_frame (draw : nat) :
  select_chair draw roster (AStr "galaxies") "2020-01-01" "10:00" "11:00"
               None None "all"
  = Raise (NameError "f")
  /\ exists area1_data,
       getitem_col mixed_roster "area_of_expertise_1" = Ok area1_data
       /\ primary_stage roster area1_data (AStr "galaxies")
          = Ok (mkDF roster_columns [(3, P2)])
       /\ field roster "area_of_expertise_1" P2 = Str "stars"
       /\ filter (fun r => cell_eq (field roster "area_of_expertise_1" (snd r))
                                   (Str "galaxies"))
                 (rows roster) = [].
Proof.
  split; [reflexivity|].
  eexists. repeat split; reflexivity.
Qed.

(** X17. Lines 82-83 taken alone, on a roster and the column of its own
    first area of expertise: with a single string [a] the stage returns the
    rows of the roster whose field is the string [a], each once, unaltered
    and in the roster's order, and no other row. *)
Theorem primary_stage_single_exact (df : DataFrame) (area1_data : Series cell)
    (a : string) :
  getitem_col df "area_of_expertise_1" = Ok area1_data ->
  exists out,
    primary_stage df area1_data (AStr a) = Ok out
    /\ columns out = columns df
    /\ rows out
       = filter (fun r => cell_eq (field df "area_of_expertise_1" (snd r)) (Str a))
                (rows df)
    /\ forall row,
         In row (rows out) <->
         In row (rows df) /\ field df "area_of_expertise_1" (snd row) = Str a.
Proof.
  intros Hcol. unfold primary_stage. simpl.
  rewrite (series_eq_row_mask df _ a _ Hcol).
  unfold getitem_bool.
  destruct (list_eq_dec Z.eq_dec _ _) as [_|Hne].
  - eexists. split; [reflexivity|]. simpl. split; [reflexivity|].
    unfold row_mask. rewrite map_map. simpl.
    rewrite (take_mask_positional
               (fun r => cell_eq (field df "area_of_expertise_1" (snd r)) (Str a))).
    split; [reflexivity|].
    intros row. rewrite filter_In, cell_eq_str. tauto.
  - exfalso. apply Hne. apply row_mask_index.
Qed.

Lemma primary_stage_single_witness :
  exists out,
    primary_stage mixed_roster
      (map (fun r => (fst r, field mixed_roster "area_of_expertise_1" (snd r)))
           (rows mixed_roster))
      (AStr "galaxies") = Ok out
    /\ rows out = [(3, S2)].
Proof.
  destruct (primary_stage_single_exact mixed_roster
              (map (fun r => (fst r, field mixed_roster "area_of_expertise_1" (snd r)))
                   (rows mixed_roster))
              "galaxies" eq_refl)
    as [out [Hout [_ [Hrows _]]]].
  exists out. split; [exact Hout|]. rewrite Hrows. reflexivity.
Defined.

(** C8. A call in the mode "random" does not return a row of what the mode
    "all" returns: both raise NameError at line 73, here on a query that one
    row of the roster survives. *)
Theorem random_call_raises (draw : nat) :
  select_chair draw roster (AStr "stars") "2020-01-01" "10:00" "11:00"
               None None "random"
  = Raise (NameError "f")
  /\ select_chair draw roster (AStr "stars") "2020-01-01" "10:00" "11:00"
                  None None "all"
     = Raise (NameError "f").
Proof.
  split; reflexivity.
Qed.

(** C9. In the mode "all" two calls on the same arguments need not give the
    same outcome: the outcome depends on what the module-level name [f] is
    bound to, which is no argument of the call. On the roster of the
    scenarios and one query, the call raises NameError when [f] is unbound
    (the module as written), returns label 3 when [f] names the roster, and
    returns no label when [f] names another frame with the same labels. *)
Theorem select_chair_depends_on_global_f (draw : nat) :
  select_chair_in [] draw roster (AStr "stars") "2020-01-01" "10:00" "11:00"
                  None None "all"
  = Raise (NameError "f")
  /\ select_chair_in [("f", roster)] draw roster (AStr "stars")
                     "2020-01-01" "10:00" "11:00" None None "all"
     = Ok (OutFrame (nan_frame roster_columns [3]))
  /\ select_chair_in [("f", mixed_roster)] draw roster (AStr "stars")
                     "2020-01-01" "10:00" "11:00" None None "all"
     = Ok (OutFrame (nan_frame roster_columns []))
  /\ select_chair draw roster (AStr "stars") "2020-01-01" "10:00" "11:00"
                  None None "all"
     = Raise (NameError "f").
Proof.
  repeat split; reflexivity.
Qed.

(** For one binding of the module-level names, the outcome in the mode
    "all" does not depend on the state of the random generator. *)
Lemma select_chair_all_deterministic (g : globals) (draw1 draw2 : nat)
    (df : DataFrame) (area1 : area) (date start_time end_time : string)
    (area2 area3 : option area) :
  select_chair_in g draw1 df area1 date start_time end_time area2 area3 "all"
  = select_chair_in g draw2 df area1 date start_time end_time area2 area3 "all"
  /\ select_chair draw1 df area1 date start_time end_time area2 area3 "all"
     = select_chair draw2 df area1 date start_time end_time area2 area3 "all".
Proof.
  split; reflexivity.
Qed.

(** C10. When the parser returns a frame with its default index, [read_data]
    returns a frame with the same columns and as many rows, whose row at
    position [i] holds the cells of the parsed row at position [i] under the
    label [i + 2]; when the parser raises, [read_data] raises the same
    exception. *)
Theorem read_data_contract (read_csv : string -> result DataFrame)
    (filename : string) :
  (forall df0,
     read_csv filename = Ok df0 ->
     index df0 = range_index (List.length (rows df0)) ->
     exists df,
       read_data read_csv filename = Ok df
       /\ columns df = columns df0
       /\ List.length (rows df) = List.length (rows df0)
       /\ forall i l r,
            nth_error (rows df0) i = Some (l, r) ->
            nth_error (rows df) i = Some (Z.of_nat i + 2, r))
  /\ (forall e,
        read_csv filename = Raise e -> read_data read_csv filename = Raise e).
Proof.
  split.
  - intros df0 Hread Hix. unfold read_data. rewrite Hread. simpl.
    eexists. split; [reflexivity|]. simpl. split; [reflexivity|].
    split; [apply length_map|].
    intros i l r Hnth. unfold label in *.
    rewrite nth_error_map, Hnth. simpl.
    assert (Hl : nth_error (index df0) i = Some l).
    { unfold index. rewrite nth_error_map. unfold label. rewrite Hnth. reflexivity. }
    rewrite Hix in Hl. unfold range_index in Hl.
    rewrite nth_error_map in Hl.
    destruct (nth_error (seq 0 _) i) as [k|] eqn:Hk;
      [|simpl in Hl; discriminate].
    assert (Hi : (i < List.length (rows df0))%nat).
    { assert (Hlt : nth_error (seq 0 (List.length (rows df0))) i <> None)
        by (unfold label; congruence).
      apply nth_error_Some in Hlt. now rewrite length_seq in Hlt. }
    rewrite (nth_error_nth' _ O) in Hk by (rewrite length_seq; exact Hi).
    rewrite seq_nth in Hk by exact Hi.
    simpl in Hl, Hk. inversion Hk; subst k. inversion Hl; subst l. reflexivity.
  - intros e Hread. unfold read_data. rewrite Hread. reflexivity.
Qed.

Lemma read_data_witness :
  (exists df,
     read_data sample_read_csv "chairs.csv" = Ok df
     /\ nth_error (rows df) 1 = Some (3, P2))
  /\ read_data sample_read_csv "missing.csv"
     = Raise (OSError "No such file or directory").
Proof.
  destruct (read_data_contract sample_read_csv "chairs.csv") as [Hok _].
  destruct (read_data_contract sample_read_csv "missing.csv") as [_ Herr].
  split.
  - destruct (Hok (mkDF roster_columns [(0, P1); (1, P2)]) eq_refl eq_refl)
      as [df [Hdf [_ [_ Hnth]]]].
    exists df. split; [exact Hdf|].
    apply (Hnth 1%nat 1 P2). reflexivity.
  - apply Herr. reflexivity.
Defined.


(** ** Further properties of the stages *)

Lemma getitem_col_ok (f : DataFrame) (name : string) :
  col_pos name (columns f) <> None ->
  getitem_col f name
  = Ok (map (fun r => (fst r, field f name (snd r))) (rows f)).
Proof.
  unfold getitem_col, field.
  destruct (col_pos name (columns f)); [reflexivity | congruence].
Qed.

(** Selecting from a frame by a column of [f] compared with a string keeps
    the rows whose label [f] marks. *)
Lemma getitem_bool_area (f sel : DataFrame) (name v : string) (col : Series cell) :
  getitem_col f name = Ok col ->
  NoDup (index f) ->
  incl (index sel) (index f) ->
  getitem_bool sel (series_eq col v)
  = Ok (mkDF (columns sel)
             (filter (fun r => area_mark f name v (fst r)) (rows sel))).
Proof.
  intros Hcol Hnd Hincl.
  rewrite (series_eq_row_mask f name v col Hcol).
  rewrite getitem_bool_filter;
    [reflexivity
    | rewrite row_mask_index; exact Hnd
    | rewrite row_mask_index; exact Hincl].
Qed.

Lemma incl_filter_index (p : label -> bool) (ix jx : list label) :
  incl ix jx -> incl (filter p ix) jx.
Proof.
  intros H x Hx. apply filter_In in Hx. now apply H.
Qed.

Lemma in_rows_index (df : DataFrame) (l : label) (r : list cell) :
  In (l, r) (rows df) -> In l (index df).
Proof.
  intros H. unfold index. apply in_map_iff. now exists (l, r).
Qed.

Lemma nan_frame_all_missing (cols : list string) (ix : list label) :
  all_missing (nan_frame cols ix).
Proof.
  intros l r H. unfold nan_frame in H. simpl in H.
  apply in_map_iff in H. destruct H as [k [E _]]. now inversion E.
Qed.

(** X1. Whatever the frame and the window, the schedule-conflict stage
    returns the labels it keeps with every cell missing: no value of the
    roster survives line 118. *)
Theorem schedule_stage_all_missing (f sel : DataFrame) (sd ss se : Series cell)
    (d s e : string) :
  getitem_col f "session_date" = Ok sd ->
  getitem_col f "session_start" = Ok ss ->
  getitem_col f "session_end" = Ok se ->
  NoDup (index f) ->
  increasing (index sel) ->
  incl (index sel) (index f) ->
  exists out,
    schedule_stage sel sd ss se d s e = Ok out
    /\ columns out = columns sel
    /\ index out = filter (kept f d s e) (index sel)
    /\ all_missing out.
Proof.
  intros Hd Hs He Hnd Hinc Hincl.
  exists (nan_frame (columns sel) (filter (kept f d s e) (index sel))).
  split; [now apply schedule_stage_general|].
  split; [reflexivity|].
  split; [apply nan_frame_index | apply nan_frame_all_missing].
Qed.

Lemma schedule_stage_all_missing_witness :
  exists out,
    schedule_stage mixed_roster
      (map (fun r => (fst r, field mixed_roster "session_date" (snd r)))
           (rows mixed_roster))
      (map (fun r => (fst r, field mixed_roster "session_start" (snd r)))
           (rows mixed_roster))
      (map (fun r => (fst r, field mixed_roster "session_end" (snd r)))
           (rows mixed_roster))
      "2020-03-03" "10:00" "11:00" = Ok out
    /\ index out = [2; 3]
    /\ all_missing out.
Proof.
  destruct (schedule_stage_all_missing mixed_roster mixed_roster
              (map (fun r => (fst r, field mixed_roster "session_date" (snd r)))
                   (rows mixed_roster))
              (map (fun r => (fst r, field mixed_roster "session_start" (snd r)))
                   (rows mixed_roster))
              (map (fun r => (fst r, field mixed_roster "session_end" (snd r)))
                   (rows mixed_roster))
              "2020-03-03" "10:00" "11:00")
    as [out [Hout [_ [Hix Hnan]]]].
  - reflexivity.
  - reflexivity.
  - reflexivity.
  - repeat constructor; simpl; intuition discriminate.
  - repeat constructor; simpl; lia.
  - apply incl_refl.
  - exists out. split; [exact Hout|]. split; [rewrite Hix; reflexivity | exact Hnan].
Defined.

(** X2. With a single string, the secondary and the tertiary stage keep the
    rows of the frame they are given whose label holds that string in the
    roster the columns were read from, unaltered and in order; the tertiary
    stage does so whatever the second query is. *)
Theorem later_stages_single_value (f sel : DataFrame) (c2 c3 : Series cell)
    (v : string) (q2 : option area) :
  getitem_col f "area_of_expertise_2" = Ok c2 ->
  getitem_col f "area_of_expertise_3" = Ok c3 ->
  NoDup (index f) ->
  incl (index sel) (index f) ->
  secondary_stage sel c2 (Some (AStr v))
  = Ok (mkDF (columns sel)
             (filter (fun r => area_mark f "area_of_expertise_2" v (fst r))
                     (rows sel)))
  /\ tertiary_stage sel c3 q2 (Some (AStr v))
     = Ok (mkDF (columns sel)
                (filter (fun r => area_mark f "area_of_expertise_3" v (fst r))
                        (rows sel))).
Proof.
  intros H2 H3 Hnd Hincl. unfold secondary_stage, tertiary_stage. simpl.
  split; now apply getitem_bool_area.
Qed.

Lemma later_stages_single_value_witness :
  secondary_stage roster
    (map (fun r => (fst r, field mixed_roster "area_of_expertise_2" (snd r)))
         (rows mixed_roster))
    (Some (AStr "radio"))
  = Ok (mkDF roster_columns [(3, P2)]).
Proof.
  apply (later_stages_single_value mixed_roster roster _
           (map (fun r => (fst r, field mixed_roster "area_of_expertise_3" (snd r)))
                (rows mixed_roster))
           "radio" None).
  - reflexivity.
  - reflexivity.
  - repeat constructor; simpl; intuition discriminate.
  - apply incl_refl.
Defined.

(** ** A call with string queries, the name [f] being bound to the roster *)

Lemma restrict_index (df : DataFrame) (p : label -> bool) :
  index (restrict df p) = filter p (index df).
Proof.
  unfold restrict, index. simpl. apply index_filter_label.
Qed.

Lemma restrict_all (df : DataFrame) : restrict df (fun _ => true) = df.
Proof.
  destruct df as [cols rs]. unfold restrict. simpl. f_equal.
  induction rs as [|r rs IH]; simpl; [reflexivity | now rewrite IH].
Qed.

Lemma secondary_stage_query (f sel : DataFrame) (c2 : Series cell) (q : option string) :
  getitem_col f "area_of_expertise_2" = Ok c2 ->
  NoDup (index f) ->
  incl (index sel) (index f) ->
  secondary_stage sel c2 (option_map AStr q)
  = Ok (restrict sel (query_mark f "area_of_expertise_2" q)).
Proof.
  intros H2 Hnd Hincl. destruct q as [v|]; simpl.
  - now apply getitem_bool_area.
  - now rewrite restrict_all.
Qed.

Lemma tertiary_stage_query (f sel : DataFrame) (c3 : Series cell)
    (q2 : option area) (q : option string) :
  getitem_col f "area_of_expertise_3" = Ok c3 ->
  NoDup (index f) ->
  incl (index sel) (index f) ->
  tertiary_stage sel c3 q2 (option_map AStr q)
  = Ok (restrict sel (query_mark f "area_of_expertise_3" q)).
Proof.
  intros H3 Hnd Hincl. destruct q as [v|]; simpl.
  - now apply getitem_bool_area.
  - now rewrite restrict_all.
Qed.

Lemma has_columns_each (f : DataFrame) :
  has_columns f ->
  col_pos "area_of_expertise_1" (columns f) <> None
  /\ col_pos "area_of_expertise_2" (columns f) <> None
  /\ col_pos "area_of_expertise_3" (columns f) <> None
  /\ col_pos "session_date" (columns f) <> None
  /\ col_pos "session_start" (columns f) <> None
  /\ col_pos "session_end" (columns f) <> None.
Proof.
  intros H. repeat split; apply H; simpl; tauto.
Qed.

(** The stages before the output, composed, on string queries. *)
Lemma stages_compose (df : DataFrame) (a1 : string) (a2 a3 : option string)
    (d s e : string) :
  has_columns df ->
  increasing (index df) ->
  select_chair_in [("f", df)] 0 df (AStr a1) d s e
                  (option_map AStr a2) (option_map AStr a3) "all"
  = Ok (OutFrame (nan_frame (columns df) (survivors df a1 a2 a3 d s e)))
  /\ forall draw mode,
       select_chair_in [("f", df)] draw df (AStr a1) d s e
                       (option_map AStr a2) (option_map AStr a3) mode
       = output_stage draw
           (nan_frame (columns df) (survivors df a1 a2 a3 d s e)) mode.
Proof.
  intros Hcols Hinc.
  assert (Hnd : NoDup (index df)) by now apply increasing_nodup.
  destruct (has_columns_each df Hcols) as [H1 [H2 [H3 [H4 [H5 H6]]]]].
  assert (Hall : forall draw mode,
       select_chair_in [("f", df)] draw df (AStr a1) d s e
                       (option_map AStr a2) (option_map AStr a3) mode
       = output_stage draw
           (nan_frame (columns df) (survivors df a1 a2 a3 d s e)) mode).
  { intros draw mode.
    unfold select_chair_in. cbn [resolve String.eqb Ascii.eqb Bool.eqb Py.bind].
    unfold select_chair_body.
    rewrite (getitem_col_ok df _ H1), (getitem_col_ok df _ H2),
      (getitem_col_ok df _ H3), (getitem_col_ok df _ H4),
      (getitem_col_ok df _ H5), (getitem_col_ok df _ H6).
    cbn [Py.bind].
    unfold primary_stage. cbn [size Nat.eqb].
    rewrite (getitem_bool_area df df "area_of_expertise_1" a1 _
               (getitem_col_ok df _ H1) Hnd (incl_refl _)).
    cbn [Py.bind].
    change (mkDF (columns df)
              (filter (fun r => area_mark df "area_of_expertise_1" a1 (fst r))
                      (rows df)))
      with (restrict df (area_mark df "area_of_expertise_1" a1)).
    set (s1 := restrict df (area_mark df "area_of_expertise_1" a1)).
    assert (I1 : incl (index s1) (index df)).
    { unfold s1. rewrite restrict_index. apply incl_filter_index, incl_refl. }
    rewrite (secondary_stage_query df s1 _ a2 (getitem_col_ok df _ H2) Hnd I1).
    cbn [Py.bind].
    set (s2 := restrict s1 (query_mark df "area_of_expertise_2" a2)).
    assert (I2 : incl (index s2) (index df)).
    { unfold s2. rewrite restrict_index. now apply incl_filter_index. }
    rewrite (tertiary_stage_query df s2 _ _ a3 (getitem_col_ok df _ H3) Hnd I2).
    cbn [Py.bind].
    set (s3 := restrict s2 (query_mark df "area_of_expertise_3" a3)).
    assert (I3 : incl (index s3) (index df)).
    { unfold s3. rewrite restrict_index. now apply incl_filter_index. }
    assert (E3 : index s3
                 = filter (query_mark df "area_of_expertise_3" a3)
                     (filter (query_mark df "area_of_expertise_2" a2)
                        (filter (area_mark df "area_of_expertise_1" a1) (index df)))).
    { unfold s3, s2, s1. now rewrite !restrict_index. }
    rewrite (schedule_stage_general df _ _ _ d s e
               (getitem_col_ok df _ H4) (getitem_col_ok df _ H5)
               (getitem_col_ok df _ H6) Hnd s3).
    - cbn [Py.bind]. rewrite E3. reflexivity.
    - rewrite E3. now repeat apply increasing_filter.
    - exact I3. }
  split; [|exact Hall].
  rewrite Hall. reflexivity.
Qed.

Lemma roster_columns_has_columns (f : DataFrame) :
  columns f = roster_columns -> has_columns f.
Proof.
  intros E name H. rewrite E. simpl in H.
  repeat (destruct H as [<-|H]; [discriminate|]). contradiction.
Qed.

Lemma survivors_in_index (f : DataFrame) (a1 : string) (a2 a3 : option string)
    (d s e : string) :
  incl (survivors f a1 a2 a3 d s e) (index f).
Proof.
  unfold survivors. repeat apply incl_filter_index. apply incl_refl.
Qed.

Lemma survivors_nodup (f : DataFrame) (a1 : string) (a2 a3 : option string)
    (d s e : string) :
  increasing (index f) -> NoDup (survivors f a1 a2 a3 d s e).
Proof.
  intros H. apply increasing_nodup. unfold survivors.
  now repeat apply increasing_filter.
Qed.

(** X3. In a module where [f] names the roster passed as [df], a call with
    string queries in the mode "all" succeeds on every roster that has the
    six columns and increasing labels: it returns the labels that pass the
    three expertise tests and the schedule test, each with every cell
    missing. *)
Theorem call_all_returns_missing_rows (df : DataFrame) (a1 : string)
    (a2 a3 : option string) (d s e : string) (draw : nat) :
  has_columns df ->
  increasing (index df) ->
  exists out,
    select_chair_in [("f", df)] draw df (AStr a1) d s e
                    (option_map AStr a2) (option_map AStr a3) "all"
    = Ok (OutFrame out)
    /\ columns out = columns df
    /\ index out = survivors df a1 a2 a3 d s e
    /\ all_missing out.
Proof.
  intros Hcols Hinc.
  destruct (stages_compose df a1 a2 a3 d s e Hcols Hinc)
    as [_ Hall].
  exists (nan_frame (columns df) (survivors df a1 a2 a3 d s e)).
  rewrite Hall. split; [reflexivity|]. split; [reflexivity|].
  split; [apply nan_frame_index | apply nan_frame_all_missing].
Qed.

Lemma call_all_returns_missing_rows_witness :
  exists out,
    select_chair_in [("f", mixed_roster)] 0 mixed_roster (AStr "galaxies")
                    "2020-01-01" "10:00" "11:00"
                    (Some (AStr "radio")) None "all"
    = Ok (OutFrame out)
    /\ index out = [3]
    /\ all_missing out.
Proof.
  destruct (call_all_returns_missing_rows mixed_roster "galaxies"
              (Some "radio") None "2020-01-01" "10:00" "11:00" 0%nat)
    as [out [Hout [_ [Hix Hnan]]]].
  - apply roster_columns_has_columns. reflexivity.
  - repeat constructor; simpl; lia.
  - exists out. split; [exact Hout|]. split; [rewrite Hix; reflexivity | exact Hnan].
Defined.

(** X4. In the same setting the mode "random" raises ValueError when no
    label survives, and otherwise returns one surviving label with a row of
    missing values. *)
Theorem call_random_returns_missing_row (df : DataFrame) (a1 : string)
    (a2 a3 : option string) (d s e : string) (draw : nat) :
  has_columns df ->
  increasing (index df) ->
  (survivors df a1 a2 a3 d s e = [] ->
   select_chair_in [("f", df)] draw df (AStr a1) d s e
                   (option_map AStr a2) (option_map AStr a3) "random"
   = Raise ValueError)
  /\ (survivors df a1 a2 a3 d s e <> [] ->
      exists l,
        In l (survivors df a1 a2 a3 d s e)
        /\ select_chair_in [("f", df)] draw df (AStr a1) d s e
                           (option_map AStr a2) (option_map AStr a3) "random"
           = Ok (OutRow l (nan_row (List.length (columns df))))).
Proof.
  intros Hcols Hinc.
  destruct (stages_compose df a1 a2 a3 d s e Hcols Hinc)
    as [_ Hall].
  rewrite Hall. split.
  - intros E. rewrite E. reflexivity.
  - intros Hne.
    set (out := nan_frame (columns df) (survivors df a1 a2 a3 d s e)).
    destruct (output_stage_random_member draw out) as [l [r [Hrand [_ Hin]]]].
    + unfold out. rewrite nan_frame_index. now apply survivors_nodup.
    + unfold out, nan_frame. simpl.
      destruct (survivors df a1 a2 a3 d s e); [congruence | discriminate].
    + exists l. split.
      * apply in_rows_index in Hin. unfold out in Hin.
        now rewrite nan_frame_index in Hin.
      * rewrite Hrand. f_equal. f_equal.
        exact (nan_frame_all_missing (columns df)
                 (survivors df a1 a2 a3 d s e) l r Hin).
Qed.

Lemma call_random_returns_missing_row_witness :
  select_chair_in [("f", roster)] 5 roster (AStr "planets")
                  "2020-01-01" "10:00" "11:00" None None "random"
  = Raise ValueError
  /\ exists l,
       In l [3]
       /\ select_chair_in [("f", roster)] 5 roster (AStr "stars")
                          "2020-01-01" "10:00" "11:00" None None "random"
          = Ok (OutRow l (nan_row 6)).
Proof.
  split.
  - apply (call_random_returns_missing_row roster "planets" None None
             "2020-01-01" "10:00" "11:00" 5%nat).
    + apply roster_columns_has_columns. reflexivity.
    + repeat constructor; simpl; lia.
    + reflexivity.
  - apply (call_random_returns_missing_row roster "stars" None None
             "2020-01-01" "10:00" "11:00" 5%nat).
    + apply roster_columns_has_columns. reflexivity.
    + repeat constructor; simpl; lia.
    + discriminate.
Defined.

(** X5. In the same setting a mode that is neither "all" nor "random" makes
    the call run every filter and return Python's None, without an error. *)
Theorem call_unknown_mode_returns_none (df : DataFrame) (a1 : string)
    (a2 a3 : option string) (d s e mode : string) (draw : nat) :
  has_columns df ->
  increasing (index df) ->
  mode <> "all" ->
  mode <> "random" ->
  select_chair_in [("f", df)] draw df (AStr a1) d s e
                  (option_map AStr a2) (option_map AStr a3) mode
  = Ok OutNone.
Proof.
  intros Hcols Hinc Hall Hrand.
  destruct (stages_compose df a1 a2 a3 d s e Hcols Hinc)
    as [_ Hcall].
  rewrite Hcall. unfold output_stage.
  destruct (String.eqb_spec mode "all") as [E|_]; [contradiction|].
  destruct (String.eqb_spec mode "random") as [E|_]; [contradiction|].
  reflexivity.
Qed.

Lemma call_unknown_mode_returns_none_witness :
  select_chair_in [("f", roster)] 0 roster (AStr "stars")
                  "2020-01-01" "10:00" "11:00" None None "Random"
  = Ok OutNone.
Proof.
  apply (call_unknown_mode_returns_none roster "stars" None None
           "2020-01-01" "10:00" "11:00" "Random" 0%nat).
  - apply roster_columns_has_columns. reflexivity.
  - repeat constructor; simpl; lia.
  - discriminate.
  - discriminate.
Defined.

(** X6. In a module where [f] names a frame that lacks one of the six
    columns, every call raises KeyError for one of the missing columns,
    whatever the roster, the query and the mode, also when that column is
    not queried. *)
Theorem call_missing_column_raises (g : globals) (f df : DataFrame) (draw : nat)
    (q1 : area) (d s e : string) (q2 q3 : option area) (mode : string) :
  ~ has_columns f ->
  exists name,
    In name roster_columns
    /\ col_pos name (columns f) = None
    /\ select_chair_in (("f", f) :: g) draw df q1 d s e q2 q3 mode
       = Raise (KeyError name).
Proof.
  intros Hno. unfold select_chair_in.
  cbn [resolve String.eqb Ascii.eqb Bool.eqb Py.bind].
  unfold select_chair_body, getitem_col.
  destruct (col_pos "area_of_expertise_1" (columns f)) eqn:E1;
    [|exists "area_of_expertise_1"; simpl; tauto].
  destruct (col_pos "area_of_expertise_2" (columns f)) eqn:E2;
    [|exists "area_of_expertise_2"; simpl; tauto].
  destruct (col_pos "area_of_expertise_3" (columns f)) eqn:E3;
    [|exists "area_of_expertise_3"; simpl; tauto].
  destruct (col_pos "session_date" (columns f)) eqn:E4;
    [|exists "session_date"; simpl; tauto].
  destruct (col_pos "session_start" (columns f)) eqn:E5;
    [|exists "session_start"; simpl; tauto].
  destruct (col_pos "session_end" (columns f)) eqn:E6;
    [|exists "session_end"; simpl; tauto].
  exfalso. apply Hno. intros name H. simpl in H.
  repeat (destruct H as [<-|H]; [congruence|]). contradiction.
Qed.

Lemma call_missing_column_raises_witness :
  exists name,
    In name roster_columns
    /\ col_pos name (columns (mkDF ["area_of_expertise_1"; "session_date"] [])) = None
    /\ select_chair_in [("f", mkDF ["area_of_expertise_1"; "session_date"] [])]
                       0 roster (AStr "stars") "2020-01-01" "10:00" "11:00"
                       None None "all"
       = Raise (KeyError name).
Proof.
  apply (call_missing_column_raises []
           (mkDF ["area_of_expertise_1"; "session_date"] []) roster 0%nat
           (AStr "stars") "2020-01-01" "10:00" "11:00" None None "all").
  intros H. apply (H "session_end"); [simpl; tauto | reflexivity].
Defined.

(** ** The loop of the primary stage *)

Lemma lookup_map_self {A : Type} (g : label -> A) (l : label) (U : list label) :
  In l U -> lookup l (map (fun k => (k, g k)) U) = Some (g l).
Proof.
  induction U as [|k U IH]; simpl; intros H; [contradiction|].
  destruct (Z.eqb_spec l k) as [->|Hne]; [reflexivity|].
  destruct H as [E|H]; [congruence | now apply IH].
Qed.

Lemma union_index_in_left (a b : list label) (l : label) :
  In l a -> In l (union_index a b).
Proof.
  intros H. unfold union_index.
  destruct (list_eq_dec Z.eq_dec a b); [exact H|].
  apply sort_uniq_in. apply in_app_iff. now left.
Qed.

(** [a += b] keeps the index of [a]; the row at a label is the sum of the
    two rows there. *)
Lemma frame_iadd_rows (a b : DataFrame) :
  frame_iadd a b
  = mkDF (columns a)
         (map (fun l => (l, row_add (List.length (columns a))
                                    (lookup l (rows a)) (lookup l (rows b))))
              (index a)).
Proof.
  unfold frame_iadd, reindex_like, frame_add. simpl. f_equal.
  apply map_ext_in. intros l Hl.
  rewrite (lookup_map_self
             (fun k => row_add (List.length (columns a))
                               (lookup k (rows a)) (lookup k (rows b)))).
  - reflexivity.
  - now apply union_index_in_left.
Qed.

Lemma nan_add_nan (w : nat) :
  map (fun p => cell_add (fst p) (snd p)) (combine (nan_row w) (nan_row w))
  = nan_row w.
Proof.
  unfold nan_row. induction w as [|w IH]; simpl; [reflexivity | now rewrite IH].
Qed.

Lemma area_mark_other (f : DataFrame) (name a0 a : string) (l : label) :
  area_mark f name a0 l = true -> a <> a0 -> area_mark f name a l = false.
Proof.
  unfold area_mark. rewrite !mask_at_row_mask.
  destruct (lookup l (rows f)) as [r|]; [|discriminate].
  intros H Hne. apply cell_eq_str in H. rewrite H. simpl.
  apply String.eqb_neq. congruence.
Qed.

Section PrimaryLoop.

Variables (df : DataFrame) (col : Series cell) (a0 : string).

Hypothesis Hcol : getitem_col df "area_of_expertise_1" = Ok col.
Hypothesis Hnd : NoDup (index df).

Lemma primary_step_rows (d : DataFrame) (a : string) :
  marked df a0 (index d) ->
  primary_step col (Ok d) a
  = Ok (mkDF (columns d)
          (map (fun l =>
                  (l, row_add (List.length (columns d)) (lookup l (rows d))
                        (if area_mark df "area_of_expertise_1" a l
                         then lookup l (rows d) else None)))
               (index d))).
Proof.
  intros Hm. unfold primary_step. cbn [Py.bind].
  rewrite (getitem_bool_area df d "area_of_expertise_1" a col Hcol Hnd).
  - cbn [Py.bind]. rewrite frame_iadd_rows. simpl. f_equal. f_equal.
    apply map_ext. intros l. now rewrite lookup_filter_label.
  - intros l Hl. now apply Hm.
Qed.

Lemma primary_step_other (d : DataFrame) (a : string) :
  marked df a0 (index d) -> a <> a0 ->
  primary_step col (Ok d) a = Ok (nan_frame (columns d) (index d)).
Proof.
  intros Hm Hne. rewrite primary_step_rows by exact Hm.
  unfold nan_frame. f_equal. f_equal. apply map_ext_in. intros l Hl.
  rewrite (area_mark_other df _ a0 a l (proj2 (Hm l Hl)) Hne).
  unfold row_add. now destruct (lookup l (rows d)).
Qed.

Lemma primary_step_nan (cols : list string) (ix : list label) (a : string) :
  marked df a0 ix ->
  primary_step col (Ok (nan_frame cols ix)) a = Ok (nan_frame cols ix).
Proof.
  intros Hm. rewrite primary_step_rows by (now rewrite nan_frame_index).
  rewrite nan_frame_index. unfold nan_frame. simpl. f_equal. f_equal.
  apply map_ext_in. intros l Hl.
  rewrite (lookup_map_self (fun _ => nan_row (List.length cols)) l ix Hl).
  destruct (area_mark df "area_of_expertise_1" a l); simpl; [|reflexivity].
  now rewrite nan_add_nan.
Qed.

Lemma primary_step_keeps (d : DataFrame) (a : string) :
  marked df a0 (index d) ->
  exists d', primary_step col (Ok d) a = Ok d'
             /\ columns d' = columns d /\ index d' = index d.
Proof.
  intros Hm. rewrite primary_step_rows by exact Hm.
  eexists. split; [reflexivity|]. split; [reflexivity|].
  unfold index. simpl. rewrite map_map. simpl. apply map_id.
Qed.

Lemma primary_loop_nan (cols : list string) (ix : list label) (items : list string) :
  marked df a0 ix ->
  fold_left (primary_step col) items (Ok (nan_frame cols ix))
  = Ok (nan_frame cols ix).
Proof.
  intros Hm. induction items as [|a items IH]; cbn [fold_left]; [reflexivity|].
  now rewrite primary_step_nan.
Qed.

Lemma primary_loop_other (items : list string) :
  forall d,
    marked df a0 (index d) ->
    (exists a, In a items /\ a <> a0) ->
    fold_left (primary_step col) items (Ok d)
    = Ok (nan_frame (columns d) (index d)).
Proof.
  induction items as [|a items IH]; intros d Hm [b [Hb Hne]]; [contradiction|].
  cbn [fold_left]. destruct (string_dec a a0) as [->|Hd].
  - destruct Hb as [E|Hb]; [congruence|].
    destruct (primary_step_keeps d a0 Hm) as [d' [Hstep [Hc Hi]]].
    rewrite Hstep, IH.
    + now rewrite Hc, Hi.
    + now rewrite Hi.
    + now exists b.
  - rewrite (primary_step_other d a Hm Hd).
    apply primary_loop_nan. exact Hm.
Qed.

End PrimaryLoop.

Lemma restrict_marked (df : DataFrame) (a0 : string) :
  marked df a0 (index (restrict df (area_mark df "area_of_expertise_1" a0))).
Proof.
  intros l Hl. rewrite restrict_index in Hl. apply filter_In in Hl. exact Hl.
Qed.

(** X7. At the primary stage a list query one of whose later values differs
    from the first returns the rows that hold the first value only, and
    every cell of them is missing: the later values select nothing and the
    sum of line 87 erases what the first value selected. *)
Theorem primary_stage_list_erases (df : DataFrame) (col : Series cell)
    (a0 : string) (rest : list string) :
  getitem_col df "area_of_expertise_1" = Ok col ->
  NoDup (index df) ->
  (exists a, In a rest /\ a <> a0) ->
  primary_stage df col (AList (a0 :: rest))
  = Ok (nan_frame (columns df)
          (filter (area_mark df "area_of_expertise_1" a0) (index df))).
Proof.
  intros Hcol Hnd Hex.
  pose proof (primary_loop_other df col a0 Hcol Hnd rest
                (restrict df (area_mark df "area_of_expertise_1" a0))
                (restrict_marked df a0) Hex) as Hloop.
  rewrite restrict_index in Hloop.
  unfold primary_stage.
  destruct rest as [|b rest]; [destruct Hex as [a [[] _]]|].
  cbn [size List.length Nat.eqb item0 Py.bind tail_items tl].
  rewrite (getitem_bool_area df df "area_of_expertise_1" a0 col Hcol Hnd
             (incl_refl _)).
  cbn [Py.bind]. exact Hloop.
Qed.

Lemma primary_stage_list_erases_witness :
  primary_stage mixed_roster
    (map (fun r => (fst r, field mixed_roster "area_of_expertise_1" (snd r)))
         (rows mixed_roster))
    (AList ["galaxies"; "galaxies"; "stars"])
  = Ok (nan_frame roster_columns [3]).
Proof.
  apply (primary_stage_list_erases mixed_roster _ "galaxies" ["galaxies"; "stars"]).
  - reflexivity.
  - repeat constructor; simpl; intuition discriminate.
  - exists "stars". split; [simpl; tauto | discriminate].
Defined.

Lemma add_row_to_itself (r : list cell) :
  map (fun p => cell_add (fst p) (snd p)) (combine r r)
  = map (fun c => cell_add c c) r.
Proof.
  induction r as [|c r IH]; simpl; [reflexivity | now rewrite IH].
Qed.

Lemma map_index_rows {A : Type} (h : label -> option (list cell) -> A)
    (rs : list (label * list cell)) :
  NoDup (map fst rs) ->
  map (fun l => h l (lookup l rs)) (map fst rs)
  = map (fun r => h (fst r) (Some (snd r))) rs.
Proof.
  intros Hnd. rewrite map_map. apply map_ext_in. intros [l r] Hin. simpl.
  now rewrite (lookup_in_nodup rs l r Hnd Hin).
Qed.

(** X8. At the primary stage the query that gives one value twice returns
    the rows that hold it with every string written twice over. *)
Theorem primary_stage_repeated_value_doubles (df : DataFrame) (col : Series cell)
    (a0 : string) :
  getitem_col df "area_of_expertise_1" = Ok col ->
  NoDup (index df) ->
  primary_stage df col (AList [a0; a0])
  = Ok (mkDF (columns df)
          (map (fun r => (fst r, map (fun c => cell_add c c) (snd r)))
               (filter (fun r => area_mark df "area_of_expertise_1" a0 (fst r))
                       (rows df)))).
Proof.
  intros Hcol Hnd. unfold primary_stage.
  cbn [size List.length Nat.eqb item0 Py.bind tail_items tl fold_left].
  rewrite (getitem_bool_area df df "area_of_expertise_1" a0 col Hcol Hnd
             (incl_refl _)).
  cbn [Py.bind].
  change (mkDF (columns df)
            (filter (fun r => area_mark df "area_of_expertise_1" a0 (fst r))
                    (rows df)))
    with (restrict df (area_mark df "area_of_expertise_1" a0)).
  set (d := restrict df (area_mark df "area_of_expertise_1" a0)).
  pose proof (primary_step_rows df col a0 Hcol Hnd d a0 (restrict_marked df a0))
    as Hstep.
  unfold primary_step in Hstep. cbn [Py.bind] in Hstep.
  rewrite Hstep. f_equal. f_equal.
  assert (Hd : NoDup (map fst (rows d))).
  { change (NoDup (index d)). unfold d. rewrite restrict_index.
    now apply NoDup_filter. }
  unfold index.
  rewrite (map_ext_in _
             (fun l => (l, row_add (List.length (columns d))
                             (lookup l (rows d)) (lookup l (rows d))))).
  - rewrite (map_index_rows
               (fun l x => (l, row_add (List.length (columns d)) x x))
               (rows d) Hd).
    apply map_ext. intros [l r]. simpl. now rewrite add_row_to_itself.
  - intros l Hl.
    now rewrite (proj2 (restrict_marked df a0 l Hl)).
Qed.

Lemma primary_stage_repeated_value_doubles_witness :
  primary_stage mixed_roster
    (map (fun r => (fst r, field mixed_roster "area_of_expertise_1" (snd r)))
         (rows mixed_roster))
    (AList ["stars"; "stars"])
  = Ok (mkDF roster_columns
          [(2, [Str "starsstars"; Str "x-rayx-ray"; Str "pulsarspulsars";
                Str "2020-01-012020-01-01"; Str "10:0010:00"; Str "11:0011:00"])]).
Proof.
  apply (primary_stage_repeated_value_doubles mixed_roster _ "stars").
  - reflexivity.
  - repeat constructor; simpl; intuition discriminate.
Defined.

(** ** Edge cases of the queries *)

(** X9. An empty list as a query raises IndexError at each of the three
    expertise stages, whatever the frame and the column: its size is not 1,
    so the stage asks for its first element. *)
Theorem empty_list_query_raises (sel : DataFrame) (col : Series cell)
    (q2 : option area) :
  primary_stage sel col (AList []) = Raise IndexError
  /\ secondary_stage sel col (Some (AList [])) = Raise IndexError
  /\ tertiary_stage sel col q2 (Some (AList [])) = Raise IndexError.
Proof.
  repeat split.
Qed.

(** X10. A list of one value is compared with the column position by
    position: on a roster that does not have exactly one row the primary
    stage raises ValueError, and on a roster of one row it returns what the
    value given as a string returns. *)
Theorem one_value_list_query (df : DataFrame) (col : Series cell) (v : string) :
  getitem_col df "area_of_expertise_1" = Ok col ->
  (List.length (rows df) <> 1%nat ->
   primary_stage df col (AList [v]) = Raise ValueError)
  /\ (List.length (rows df) = 1%nat ->
      primary_stage df col (AList [v]) = primary_stage df col (AStr v)).
Proof.
  intros Hcol. rewrite (getitem_col_field df _ col Hcol).
  unfold primary_stage, series_eq_list. cbn [size List.length Nat.eqb].
  rewrite length_map. split.
  - intros Hlen.
    destruct (rows df) as [|r [|r' rs]]; simpl in *; [reflexivity | congruence | reflexivity].
  - intros Hlen.
    destruct (rows df) as [|r [|r' rs]]; simpl in *; [discriminate | reflexivity | discriminate].
Qed.

Lemma one_value_list_query_witness :
  primary_stage roster
    (map (fun r => (fst r, field roster "area_of_expertise_1" (snd r)))
         (rows roster))
    (AList ["stars"])
  = Raise ValueError.
Proof.
  apply (one_value_list_query roster _ "stars").
  - reflexivity.
  - discriminate.
Defined.

(** X11. The tertiary stage reads the first value of a list query only: its
    loop runs over the second query, so two lists of several values with the
    same first value give the same outcome. *)
Theorem tertiary_stage_ignores_later_values (sel : DataFrame) (col : Series cell)
    (q2 : option area) (c0 : string) (r1 r2 : list string) :
  r1 <> [] -> r2 <> [] ->
  tertiary_stage sel col q2 (Some (AList (c0 :: r1)))
  = tertiary_stage sel col q2 (Some (AList (c0 :: r2))).
Proof.
  intros H1 H2. unfold tertiary_stage.
  destruct r1 as [|x r1]; [congruence|].
  destruct r2 as [|y r2]; [congruence|].
  reflexivity.
Qed.

Lemma tertiary_stage_ignores_later_values_witness :
  tertiary_stage mixed_roster
    (map (fun r => (fst r, field mixed_roster "area_of_expertise_3" (snd r)))
         (rows mixed_roster))
    (Some (AStr "x-ray")) (Some (AList ["pulsars"; "agn"]))
  = tertiary_stage mixed_roster
      (map (fun r => (fst r, field mixed_roster "area_of_expertise_3" (snd r)))
           (rows mixed_roster))
      (Some (AStr "x-ray")) (Some (AList ["pulsars"; "pulsars"; "pulsars"])).
Proof.
  apply (tertiary_stage_ignores_later_values mixed_roster _ _ "pulsars"
           ["agn"] ["pulsars"; "pulsars"]); discriminate.
Defined.

(** X12. With a list of several values as the third query and no second
    query, the tertiary stage selects on the first value and then raises
    TypeError, since its loop slices the second query. *)
Theorem tertiary_stage_needs_second_query (f sel : DataFrame) (col : Series cell)
    (c0 : string) (rest : list string) :
  getitem_col f "area_of_expertise_3" = Ok col ->
  NoDup (index f) ->
  incl (index sel) (index f) ->
  rest <> [] ->
  tertiary_stage sel col None (Some (AList (c0 :: rest))) = Raise TypeError.
Proof.
  intros Hcol Hnd Hincl Hrest. unfold tertiary_stage.
  destruct rest as [|x rest]; [congruence|].
  cbn [size List.length Nat.eqb item0 Py.bind].
  rewrite (getitem_bool_area f sel "area_of_expertise_3" c0 col Hcol Hnd Hincl).
  reflexivity.
Qed.

Lemma tertiary_stage_needs_second_query_witness :
  tertiary_stage roster
    (map (fun r => (fst r, field roster "area_of_expertise_3" (snd r)))
         (rows roster))
    None (Some (AList ["pulsars"; "agn"]))
  = Raise TypeError.
Proof.
  apply (tertiary_stage_needs_second_query roster roster _ "pulsars" ["agn"]).
  - reflexivity.
  - repeat constructor; simpl; intuition discriminate.
  - apply incl_refl.
  - discriminate.
Defined.

(** ** The output stage *)

(** X13. On a frame with distinct labels the mode "random" raises
    ValueError when the frame has no row and otherwise returns one row of
    the frame, label and cells as they are there. *)
Theorem output_stage_random_row (draw : nat) (sel : DataFrame) :
  NoDup (index sel) ->
  (rows sel = [] -> output_stage draw sel "random" = Raise ValueError)
  /\ (rows sel <> [] ->
      exists l r, output_stage draw sel "random" = Ok (OutRow l r)
                  /\ In (l, r) (rows sel)).
Proof.
  intros Hnd. split.
  - intros E. unfold output_stage, index. rewrite E. reflexivity.
  - intros Hne.
    destruct (random_choice_member draw (index sel)) as [l [Hl Hin]].
    { unfold index. destruct (rows sel); [congruence | discriminate]. }
    destruct (loc_unique sel l Hnd Hin) as [r [Hloc Hr]].
    exists l, r. unfold output_stage.
    cbn [String.eqb Ascii.eqb Bool.eqb]. rewrite Hl. cbn [Py.bind].
    rewrite Hloc. cbn [Py.bind]. split; [reflexivity | exact Hr].
Qed.

Lemma output_stage_random_row_witness :
  exists l r, output_stage 7 mixed_roster "random" = Ok (OutRow l r)
              /\ In (l, r) (rows mixed_roster).
Proof.
  apply (output_stage_random_row 7 mixed_roster).
  - repeat constructor; simpl; intuition discriminate.
  - discriminate.
Defined.

(** ** The loader and the command line *)

Lemma shifted_range_increasing (n a : nat) :
  increasing (map (fun l => l + 2) (map Z.of_nat (seq a n))).
Proof.
  revert a. induction n as [|n IH]; intros a; simpl; constructor.
  - apply IH.
  - apply Forall_forall. intros x Hx.
    apply in_map_iff in Hx. destruct Hx as [y [<- Hy]].
    apply in_map_iff in Hy. destruct Hy as [k [<- Hk]].
    apply in_seq in Hk. lia.
Qed.

Lemma index_shift_index (df : DataFrame) (k : Z) :
  index (index_shift df k) = map (fun l => l + k) (index df).
Proof.
  unfold index, index_shift. simpl. now rewrite !map_map.
Qed.

(** X14. A frame parsed with the default index leaves [read_data] with the
    labels 2, 3, ..., one per row and strictly increasing, hence distinct:
    the loader's output meets what the stages need of an index. *)
Theorem read_data_labels (read_csv : string -> result DataFrame)
    (filename : string) (df0 : DataFrame) :
  read_csv filename = Ok df0 ->
  index df0 = range_index (List.length (rows df0)) ->
  exists df,
    read_data read_csv filename = Ok df
    /\ increasing (index df)
    /\ NoDup (index df)
    /\ forall l, In l (index df) <->
                 2 <= l < 2 + Z.of_nat (List.length (rows df0)).
Proof.
  intros Hread Hix. unfold read_data. rewrite Hread. cbn [Py.bind].
  eexists. split; [reflexivity|].
  rewrite index_shift_index, Hix. unfold range_index.
  assert (Hinc : increasing
            (map (fun l => l + 2)
                 (map Z.of_nat (seq 0 (List.length (rows df0))))))
    by apply shifted_range_increasing.
  split; [exact Hinc|]. split; [now apply increasing_nodup|].
  intros l. rewrite in_map_iff. split.
  - intros [y [<- Hy]]. apply in_map_iff in Hy. destruct Hy as [k [<- Hk]].
    apply in_seq in Hk. lia.
  - intros Hl. exists (l - 2). split; [lia|].
    apply in_map_iff. exists (Z.to_nat (l - 2)). split; [lia|].
    apply in_seq. lia.
Qed.

Lemma read_data_labels_witness :
  exists df,
    read_data sample_read_csv "chairs.csv" = Ok df
    /\ increasing (index df)
    /\ NoDup (index df)
    /\ forall l, In l (index df) <-> 2 <= l < 2 + 2.
Proof.
  apply (read_data_labels sample_read_csv "chairs.csv"
           (mkDF roster_columns [(0, P1); (1, P2)])); reflexivity.
Defined.

(** X15. [parser] passes the six mandatory values on as they were parsed,
    turns an optional area into None exactly when it is the string "None",
    and so never hands on the string "None" as an area; an exception of
    [parse_args] is passed on. *)
Theorem parser_none_sentinel (parse_args : list string -> result parsed_args)
    (argv : list string) :
  (forall a,
     parse_args argv = Ok a ->
     exists c,
       parser parse_args argv = Ok c
       /\ filename c = p_filename a /\ area1 c = p_area1 a
       /\ date c = p_date a /\ start_time c = p_start_time a
       /\ end_time c = p_end_time a /\ mode c = p_mode a
       /\ (area2 c = None <-> p_area2 a = "None")
       /\ (area3 c = None <-> p_area3 a = "None")
       /\ (forall v, area2 c = Some v -> v = p_area2 a /\ v <> "None")
       /\ (forall v, area3 c = Some v -> v = p_area3 a /\ v <> "None"))
  /\ (forall e, parse_args argv = Raise e -> parser parse_args argv = Raise e).
Proof.
  split.
  - intros a Ha. unfold parser. rewrite Ha. cbn [Py.bind].
    eexists. split; [reflexivity|]. cbn [filename area1 date start_time end_time mode area2 area3].
    repeat (split; [reflexivity|]).
    destruct (String.eqb_spec (p_area2 a) "None") as [E2|E2];
      destruct (String.eqb_spec (p_area3 a) "None") as [E3|E3];
      repeat split; intros; try congruence;
      match goal with
      | H : Some _ = Some _ |- _ => inversion H; subst; assumption
      | _ => idtac
      end.
  - intros e He. unfold parser. rewrite He. reflexivity.
Qed.

Lemma parser_none_sentinel_witness :
  exists c,
    parser sample_parse_args
      ["--filename"; "chairs.csv"; "--area1"; "stars"; "--date"; "2020-01-01";
       "--start_time"; "10:00"; "--end_time"; "11:00"] = Ok c
    /\ area1 c = "stars" /\ area2 c = None /\ area3 c = None.
Proof.
  destruct (parser_none_sentinel sample_parse_args
              ["--filename"; "chairs.csv"; "--area1"; "stars";
               "--date"; "2020-01-01"; "--start_time"; "10:00";
               "--end_time"; "11:00"]) as [Hok _].
  destruct (Hok (mkParsed "chairs.csv" "stars" "2020-01-01" "10:00" "11:00"
                          "all" "None" "None") eq_refl)
    as [c [Hc [_ [H1 [_ [_ [_ [_ [H2 [H3 _]]]]]]]]]].
  exists c. split; [exact Hc|]. split; [exact H1|].
  split; [apply H2 | apply H3]; reflexivity.
Defined.

(** X16. [main] never prints a selection: an exception of the argument
    parser or of the file reader is passed on, in that order, and when both
    succeed the call of [select_chair] raises NameError for [f]. *)
Theorem main_always_raises (parse_args : list string -> result parsed_args)
    (read_csv : string -> result DataFrame) (draw : nat) (argv : list string) :
  (forall e, parse_args argv = Raise e ->
             main parse_args read_csv draw argv = Raise e)
  /\ (forall a e, parse_args argv = Ok a ->
                  read_csv (p_filename a) = Raise e ->
                  main parse_args read_csv draw argv = Raise e)
  /\ (forall a df0, parse_args argv = Ok a ->
                    read_csv (p_filename a) = Ok df0 ->
                    main parse_args read_csv draw argv = Raise (NameError "f"))
  /\ exists e, main parse_args read_csv draw argv = Raise e.
Proof.
  assert (H1 : forall e, parse_args argv = Raise e ->
                         main parse_args read_csv draw argv = Raise e).
  { intros e He. unfold main, parser. rewrite He. reflexivity. }
  assert (H2 : forall a e, parse_args argv = Ok a ->
                           read_csv (p_filename a) = Raise e ->
                           main parse_args read_csv draw argv = Raise e).
  { intros a e Ha He. unfold main, parser, read_data. rewrite Ha.
    cbn [Py.bind filename]. rewrite He. reflexivity. }
  assert (H3 : forall a df0, parse_args argv = Ok a ->
                             read_csv (p_filename a) = Ok df0 ->
                             main parse_args read_csv draw argv
                             = Raise (NameError "f")).
  { intros a df0 Ha Hd. unfold main, parser, read_data. rewrite Ha.
    cbn [Py.bind filename]. rewrite Hd. reflexivity. }
  repeat split; try assumption.
  destruct (parse_args argv) as [a|e] eqn:Ha.
  - destruct (read_csv (p_filename a)) as [df0|e] eqn:Hd.
    + exists (NameError "f"). now apply (H3 a df0).
    + exists e. now apply (H2 a e).
  - exists e. now apply H1.
Qed.

Lemma main_always_raises_witness :
  main sample_parse_args sample_read_csv 0
    ["--filename"; "chairs.csv"; "--area1"; "stars"; "--date"; "2020-01-01";
     "--start_time"; "10:00"; "--end_time"; "11:00"]
  = Raise (NameError "f")
  /\ main sample_parse_args sample_read_csv 0
       ["--filename"; "nowhere.csv"; "--area1"; "stars"; "--date"; "2020-01-01";
        "--start_time"; "10:00"; "--end_time"; "11:00"]
     = Raise (OSError "No such file or directory").
Proof.
  split.
  - destruct (main_always_raises sample_parse_args sample_read_csv 0%nat
                ["--filename"; "chairs.csv"; "--area1"; "stars";
                 "--date"; "2020-01-01"; "--start_time"; "10:00";
                 "--end_time"; "11:00"]) as [_ [_ [H _]]].
    apply (H (mkParsed "chairs.csv" "stars" "2020-01-01" "10:00" "11:00"
                       "all" "None" "None")
             (mkDF roster_columns [(0, P1); (1, P2)])); reflexivity.
  - destruct (main_always_raises sample_parse_args sample_read_csv 0%nat
                ["--filename"; "nowhere.csv"; "--area1"; "stars";
                 "--date"; "2020-01-01"; "--start_time"; "10:00";
                 "--end_time"; "11:00"]) as [_ [H _]].
    apply (H (mkParsed "nowhere.csv" "stars" "2020-01-01" "10:00" "11:00"
                       "all" "None" "None")); reflexivity.
Defined.
